(** * Weather forecast application: extraction of display lines and
      the area catalogue

    A shallow embedding of [main.py] (class [WeatherApp]): the weather-code
    table [get_weather_text], the construction of the area list in
    [load_area_list], and the walk over the forecast document in
    [display_weather_info].

    Conventions of the embedding.
    - A Python [str] is a [string] holding its UTF-8 encoding, so the
      literals of the source appear as they are written there.  Equality,
      concatenation, search for an ASCII character and lexicographic order
      agree with Python's on the encoding; [len], slicing and padding count
      code points, that is the bytes that are not continuation bytes
      ([py_len], [py_take]).
    - The parsed JSON documents are typed as the program reads them: an
      object is a record whose optional keys are [option] fields, an array
      is a [list], and a value that may be [null] is an [option].
    - [self.weather_info.controls] is a list of display records, one
      constructor for each [controls.append] of the source, carrying the
      values interpolated into the text; [render] gives the text itself.
      The code appends to the list, and so does the model: every step takes
      the current list and returns the extended one. *)

From Stdlib Require Import String Ascii List Arith Bool Lia.
From Stdlib Require Import Permutation Sorted DecimalString.
From Stdlib Require OrderedTypeEx.
Import ListNotations.
Open Scope string_scope.
Open Scope list_scope.
Open Scope nat_scope.

(** ** Python strings *)

Module PyStr.

(** A byte [10xxxxxx] continues a code point begun earlier. *)
Definition is_continuation (c : ascii) : bool :=
  let n := nat_of_ascii c in (128 <=? n) && (n <? 192).

(** [len(s)] *)
Fixpoint py_len (s : string) : nat :=
  match s with
  | EmptyString => 0
  | String c r => (if is_continuation c then 0 else 1) + py_len r
  end.

(** [s[:n]] *)
Fixpoint py_take (n : nat) (s : string) : string :=
  match s with
  | EmptyString => EmptyString
  | String c r =>
      if is_continuation c then String c (py_take n r)
      else match n with
           | 0 => EmptyString
           | S n' => String c (py_take n' r)
           end
  end.

(** [c in s] for a one-character string [c] *)
Fixpoint contains (c : ascii) (s : string) : bool :=
  match s with
  | EmptyString => false
  | String a r => Ascii.eqb a c || contains c r
  end.

(** [s.split(c)] for a one-character separator [c] *)
Fixpoint split (c : ascii) (s : string) : list string :=
  match s with
  | EmptyString => [EmptyString]
  | String a r =>
      if Ascii.eqb a c then EmptyString :: split c r
      else match split c r with
           | [] => [String a EmptyString]
           | h :: t => String a h :: t
           end
  end.

(** [l[i:j]] for [0 <= i <= j] *)
Definition slice {A : Type} (i j : nat) (l : list A) : list A :=
  firstn (j - i) (skipn i l).

(** [sep.join(l)] *)
Definition join (sep : string) (l : list string) : string :=
  String.concat sep l.

(** [c * n] *)
Fixpoint repeat_char (c : ascii) (n : nat) : string :=
  match n with
  | 0 => EmptyString
  | S n' => String c (repeat_char c n')
  end.

(** [f"{s:>w}"]: right-aligned in a field of width [w], the fill goes
    to the left; a longer [s] is kept whole. *)
Definition rjust (w : nat) (s : string) : string :=
  (repeat_char " " (w - py_len s) ++ s)%string.

(** [f"{s:ws}"]: left-aligned in a field of width [w], the fill goes
    to the right. *)
Definition ljust (w : nat) (s : string) : string :=
  (s ++ repeat_char " " (w - py_len s))%string.

(** [str(n)] for a natural number *)
Definition str_of_nat (n : nat) : string :=
  NilEmpty.string_of_uint (Nat.to_uint n).

(** Truth value of a string: [if s] *)
Definition truthy (s : string) : bool :=
  match s with EmptyString => false | _ => true end.

End PyStr.
Import PyStr.

(** ** The weather-code table: [WeatherApp.get_weather_text] *)

Definition weather_map : list (string * string) :=
  [
    ("100", "晴れ");
    ("101", "晴れ時々曇り");
    ("102", "晴れ一時雨");
    ("103", "晴れ時々雨");
    ("104", "晴れ一時雪");
    ("105", "晴れ時々雪");
    ("106", "晴れ一時雨か雪");
    ("107", "晴れ時々雨か雪");
    ("108", "晴れ一時雨か雷雨");
    ("110", "晴れ後時々曇り");
    ("111", "晴れ後曇り");
    ("112", "晴れ後一時雨");
    ("113", "晴れ後時々雨");
    ("114", "晴れ後雨");
    ("115", "晴れ後一時雪");
    ("116", "晴れ後時々雪");
    ("117", "晴れ後雪");
    ("118", "晴れ後雨か雪");
    ("119", "晴れ後雨か雷雨");
    ("120", "晴れ朝夕一時雨");
    ("121", "晴れ朝の内一時雨");
    ("122", "晴れ夕方一時雨");
    ("123", "晴れ山沿い雷雨");
    ("124", "晴れ山沿い雪");
    ("125", "晴れ午後は雷雨");
    ("126", "晴れ午後は雪");
    ("130", "朝の内霧後晴れ");
    ("131", "晴れ明け方霧");
    ("132", "晴れ朝夕曇り");
    ("140", "晴れ時々雨で雷を伴う");
    ("200", "曇り");
    ("201", "曇り時々晴れ");
    ("202", "曇り一時雨");
    ("203", "曇り時々雨");
    ("204", "曇り一時雪");
    ("205", "曇り時々雪");
    ("206", "曇り一時雨か雪");
    ("207", "曇り時々雨か雪");
    ("208", "曇り一時雨か雷雨");
    ("209", "霧");
    ("210", "曇り後時々晴れ");
    ("211", "曇り後晴れ");
    ("212", "曇り後一時雨");
    ("213", "曇り後時々雨");
    ("214", "曇り後雨");
    ("215", "曇り後一時雪");
    ("216", "曇り後時々雪");
    ("217", "曇り後雪");
    ("218", "曇り後雨か雪");
    ("219", "曇り後雨か雷雨");
    ("220", "曇り朝夕一時雨");
    ("221", "曇り朝の内一時雨");
    ("222", "曇り夕方一時雨");
    ("223", "曇り日中時々晴れ");
    ("224", "曇り昼頃から雨");
    ("225", "曇り夕方から雨");
    ("226", "曇り夜は雨");
    ("227", "曇り夜半から雨");
    ("228", "曇り昼頃から雪");
    ("229", "曇り夕方から雪");
    ("230", "曇り夜は雪");
    ("231", "曇り海上海岸は霧か霧雨");
    ("300", "雨");
    ("301", "雨時々晴れ");
    ("302", "雨時々止む");
    ("303", "雨時々雪");
    ("304", "雨か雪");
    ("306", "大雨");
    ("308", "雨で暴風を伴う");
    ("309", "雨一時雪");
    ("311", "雨後晴れ");
    ("313", "雨後曇り");
    ("314", "雨後時々雪");
    ("315", "雨後雪");
    ("316", "雨か雪後晴れ");
    ("317", "雨か雪後曇り");
    ("320", "朝の内雨後晴れ");
    ("321", "朝の内雨後曇り");
    ("322", "雨朝晩一時雪");
    ("323", "雨昼頃から晴れ");
    ("324", "雨夕方から晴れ");
    ("325", "雨夜は晴れ");
    ("326", "雨夕方から雪");
    ("327", "雨夜は雪");
    ("328", "雨一時強く降る");
    ("329", "雨一時みぞれ");
    ("340", "雪か雨");
    ("350", "雨で雷を伴う");
    ("361", "雪か雨後晴れ");
    ("371", "雪か雨後曇り");
    ("400", "雪");
    ("401", "雪時々晴れ");
    ("402", "雪時々止む");
    ("403", "雪時々雨");
    ("405", "大雪");
    ("406", "風雪強い");
    ("407", "暴風雪");
    ("409", "雪一時雨");
    ("411", "雪後晴れ");
    ("413", "雪後曇り");
    ("414", "雪後雨");
    ("420", "朝の内雪後晴れ");
    ("421", "朝の内雪後曇り");
    ("422", "雪昼頃から雨");
    ("423", "雪夕方から雨");
    ("425", "雪一時強く降る");
    ("426", "雪後みぞれ");
    ("427", "雪一時みぞれ");
    ("450", "雪で雷を伴う")
  ].

(** [d.get(k, default)] on a dictionary written as its list of items *)
Fixpoint dict_get (d : list (string * string)) (k : string) (default : string)
  : string :=
  match d with
  | [] => default
  | (k', v) :: d' => if String.eqb k' k then v else dict_get d' k default
  end.

Definition get_weather_text (weather_code : string) : string :=
  dict_get weather_map weather_code ("不明(" ++ weather_code ++ ")")%string.

(** ** The forecast document and the display records *)

Module Forecast.

(** [{"name": ...}] *)
Record Area := mkArea { name : option string }.

(** An element of [time_series["areas"]] ([area_info] in the source). *)
Record AreaInfo := mkAreaInfo {
  info_area : option Area;
  weatherCodes : option (list string);
  temps : option (list (option string));
  winds : option (list (option string));
  waves : option (list (option string))
}.

(** An element of [area_forecast["timeSeries"]]. *)
Record TimeSeries := mkTimeSeries {
  timeDefines : option (list string);
  areas : option (list AreaInfo)
}.

(** An element of the forecast document [weather_data]. *)
Record AreaForecast := mkAreaForecast {
  area : option Area;
  reportDatetime : option string;
  timeSeries : option (list TimeSeries)
}.

(** One constructor for each [self.weather_info.controls.append(...)]. *)
Inductive DisplayRecord : Type :=
| NoData                                    (* "[ERROR] NO DATA AVAILABLE" *)
| AreaHeader (area_name : string)           (* f">> {area_name} <<" *)
| Timestamp (report_time : string)          (* f"[TIME] {report_time}" *)
| ForecastLine (area_name : string)         (* f"[FORECAST] {area_name}" *)
| DayLine (day_index : nat) (date_short weather_text weather_code : string)
| TempLine (temp_values : list string)      (* f"  [TEMP] {temp_text}" *)
| WindLine (wind_values : list string)      (* f"  [WIND] {wind_text}" *)
| WaveLine (wave_values : list string)      (* f"  [WAVE] {wave_text}" *)
| Separator                                 (* "-" * 50 *)
| Empty.                                    (* "[WARNING] NO DISPLAYABLE DATA" *)

(** The text of the [ft.Text] built at each append. *)
Definition render (r : DisplayRecord) : string :=
  match r with
  | NoData => "[ERROR] NO DATA AVAILABLE"
  | AreaHeader area_name => ">> " ++ area_name ++ " <<"
  | Timestamp report_time => "[TIME] " ++ report_time
  | ForecastLine area_name => "[FORECAST] " ++ area_name
  | DayLine day_index date_short weather_text weather_code =>
      let day_label := "DAY " ++ str_of_nat day_index in
      "  [" ++ ljust 6 day_label ++ "] " ++ date_short ++ " | "
        ++ ljust 20 weather_text ++ " [CODE:" ++ weather_code ++ "]"
  | TempLine temp_values => "  [TEMP] " ++ join " | " temp_values
  | WindLine wind_values => "  [WIND] " ++ join " | " wind_values
  | WaveLine wave_values => "  [WAVE] " ++ join " | " wave_values
  | Separator => repeat_char "-" 50
  | Empty => "[WARNING] NO DISPLAYABLE DATA"
  end%string.

(** [d.get("area", {}).get("name", default)] *)
Definition get_area_name (a : option Area) (default : string) : string :=
  match a with
  | Some a' => match name a' with
               | Some n => n
               | None => default
               end
  | None => default
  end.

(** [zip(xs, ys)] and [enumerate(l)] *)
Definition zip {A B : Type} (xs : list A) (ys : list B) : list (A * B) :=
  combine xs ys.

Definition enumerate {A : Type} (l : list A) : list (nat * A) :=
  combine (seq 0 (List.length l)) l.

(** The date shown on a day line (the [if "T" in time_def] statement). *)
Definition date_short (time_def : string) : string :=
  if contains "T" time_def then
    let date_part := nth 0 (split "T" time_def) "" in
    if contains "-" date_part
    then join "/" (slice 1 3 (split "-" date_part))
    else date_part
  else
    if 10 <=? py_len time_def then py_take 10 time_def else time_def.

(** [f"{temp:>3}°C" if temp else "  -"] *)
Definition temp_value (temp : option string) : string :=
  match temp with
  | Some t => if truthy t then (rjust 3 t ++ "°C")%string else "  -"
  | None => "  -"
  end.

(** [wind if wind else "  -"], and the same for waves *)
Definition or_dash (x : option string) : string :=
  match x with
  | Some v => if truthy v then v else "  -"
  | None => "  -"
  end.

(** Body of [for i, (time_def, weather_code) in enumerate(zip(...))]. *)
Definition day_step (controls : list DisplayRecord)
           (x : nat * (string * string)) : list DisplayRecord :=
  let '(i, (time_def, weather_code)) := x in
  let weather_text := get_weather_text weather_code in
  controls ++ [DayLine (i + 1) (date_short time_def) weather_text weather_code].

(** Body of [for area_info in time_series["areas"]]. *)
Definition area_info_step (time_defines : list string)
           (controls : list DisplayRecord) (area_info : AreaInfo)
  : list DisplayRecord :=
  let area_name := get_area_name (info_area area_info) "" in
  let controls :=
    match weatherCodes area_info with
    | Some weather_codes =>
        fold_left day_step (enumerate (zip time_defines weather_codes))
                  (controls ++ [ForecastLine area_name])
    | None => controls
    end in
  let controls :=
    match temps area_info with
    | Some ((_ :: _) as temps) => controls ++ [TempLine (map temp_value temps)]
    | _ => controls
    end in
  let controls :=
    match winds area_info with
    | Some ((_ :: _) as winds) => controls ++ [WindLine (map or_dash winds)]
    | _ => controls
    end in
  match waves area_info with
  | Some ((_ :: _) as waves) => controls ++ [WaveLine (map or_dash waves)]
  | _ => controls
  end.

(** Body of [for time_series in area_forecast["timeSeries"]]. *)
Definition time_series_step (controls : list DisplayRecord)
           (time_series : TimeSeries) : list DisplayRecord :=
  match timeDefines time_series with
  | Some time_defines =>
      match areas time_series with
      | Some areas => fold_left (area_info_step time_defines) areas controls
      | None => controls
      end
  | None => controls
  end.

(** Body of [for area_forecast in weather_data]. *)
Definition area_forecast_step (controls : list DisplayRecord)
           (area_forecast : AreaForecast) : list DisplayRecord :=
  let controls :=
    match area area_forecast with
    | Some _ =>
        let area_name := get_area_name (area area_forecast) "不明" in
        controls ++ [AreaHeader area_name]
    | None => controls
    end in
  let controls :=
    match reportDatetime area_forecast with
    | Some report_time => controls ++ [Timestamp report_time]
    | None => controls
    end in
  let controls :=
    match timeSeries area_forecast with
    | Some blocks => fold_left time_series_step blocks controls
    | None => controls
    end in
  controls ++ [Separator].

(** [WeatherApp.display_weather_info]: the contents of
    [self.weather_info.controls] when the method returns.  The method
    starts with [controls.clear()]. *)
Definition display_weather_info (weather_data : list AreaForecast)
  : list DisplayRecord :=
  let controls := [] in
  match weather_data with
  | [] => controls ++ [NoData]
  | _ :: _ =>
      let controls := fold_left area_forecast_step weather_data controls in
      match controls with
      | [] => controls ++ [Empty]
      | _ :: _ => controls
      end
  end.

(** The records appended for one element, at each level of the walk:
    what the loop body adds to an empty list. *)
Definition day_record (x : nat * (string * string)) : list DisplayRecord :=
  day_step [] x.

Definition area_info_records (time_defines : list string)
           (area_info : AreaInfo) : list DisplayRecord :=
  area_info_step time_defines [] area_info.

Definition time_series_records (time_series : TimeSeries)
  : list DisplayRecord :=
  time_series_step [] time_series.

Definition area_forecast_records (area_forecast : AreaForecast)
  : list DisplayRecord :=
  area_forecast_step [] area_forecast.

(** The day lines for the paired time definitions and codes. *)
Definition day_lines (time_defines weather_codes : list string)
  : list DisplayRecord :=
  flat_map day_record (enumerate (zip time_defines weather_codes)).

(** The temperature, wind and wave lines of an entry. *)
Definition reading_lines (area_info : AreaInfo) : list DisplayRecord :=
  area_info_step [] [] (mkAreaInfo (info_area area_info) None
                                   (temps area_info) (winds area_info)
                                   (waves area_info)).

(** The header, the time stamp and the blocks of one area forecast. *)
Definition header_records (area_forecast : AreaForecast)
  : list DisplayRecord :=
  match area area_forecast with
  | Some _ => [AreaHeader (get_area_name (area area_forecast) "不明")]
  | None => []
  end.

Definition timestamp_records (area_forecast : AreaForecast)
  : list DisplayRecord :=
  match reportDatetime area_forecast with
  | Some report_time => [Timestamp report_time]
  | None => []
  end.

Definition blocks_records (area_forecast : AreaForecast)
  : list DisplayRecord :=
  match timeSeries area_forecast with
  | Some blocks => flat_map time_series_records blocks
  | None => []
  end.

(** [d.get("area", {}).get("name")]: the name, when there is one. *)
Definition name_of (a : option Area) : option string :=
  match a with
  | Some a' => name a'
  | None => None
  end.

(** The kinds of record. *)
Definition is_AreaHeader (r : DisplayRecord) : bool :=
  match r with AreaHeader _ => true | _ => false end.

Definition is_ForecastLine (r : DisplayRecord) : bool :=
  match r with ForecastLine _ => true | _ => false end.

Definition is_DayLine (r : DisplayRecord) : bool :=
  match r with DayLine _ _ _ _ => true | _ => false end.

Definition is_TempLine (r : DisplayRecord) : bool :=
  match r with TempLine _ => true | _ => false end.

(** A temperature, wind or wave line. *)
Definition is_reading (r : DisplayRecord) : bool :=
  match r with
  | TempLine _ | WindLine _ | WaveLine _ => true
  | _ => false
  end.

(** The two records that stand for a document with nothing to show. *)
Definition is_terminal (r : DisplayRecord) : bool :=
  match r with NoData | Empty => true | _ => false end.

(** The document of the extraction example: one area forecast for Tokyo
    with two days. *)
Definition tokyo_info : AreaInfo :=
  mkAreaInfo (Some (mkArea (Some "Tokyo"))) (Some ["100"; "200"])
             None None None.

Definition tokyo_block : TimeSeries :=
  mkTimeSeries
    (Some ["2024-01-01T00:00:00+09:00"; "2024-01-02T00:00:00+09:00"])
    (Some [tokyo_info]).

Definition tokyo_forecast : AreaForecast :=
  mkAreaForecast (Some (mkArea (Some "Tokyo")))
                 (Some "2024-01-01T00:00:00+09:00")
                 (Some [tokyo_block]).

Definition tokyo_doc : list AreaForecast := [tokyo_forecast].

(** Documents used below. *)
Definition bare_forecast : AreaForecast := mkAreaForecast None None None.

Definition nameless_forecast : AreaForecast :=
  mkAreaForecast (Some (mkArea None)) None None.

Definition full_info : AreaInfo :=
  mkAreaInfo None (Some ["100"]) (Some [Some "8"])
             (Some [Some "north"]) (Some [Some "1m"]).

Definition block_without_timeDefines : TimeSeries :=
  mkTimeSeries None (Some [full_info]).

Definition block_without_areas : TimeSeries :=
  mkTimeSeries (Some ["2024-01-01T00:00:00+09:00"]) None.

Definition nameless_block : TimeSeries :=
  mkTimeSeries (Some ["2024-01-01T00:00:00+09:00"]) (Some [full_info]).

Definition nameless_doc : list AreaForecast :=
  [mkAreaForecast None None (Some [nameless_block])].

Definition temps_info : AreaInfo :=
  mkAreaInfo None None (Some [Some "8"; Some "-12.5"; None; Some ""])
             None None.

Definition temps_doc : list AreaForecast :=
  [ mkAreaForecast None None
      (Some [ mkTimeSeries None (Some [temps_info]);
              mkTimeSeries (Some []) (Some [temps_info]) ]) ].

(** More kinds of record. *)
Definition is_Separator (r : DisplayRecord) : bool :=
  match r with Separator => true | _ => false end.

Definition is_Timestamp (r : DisplayRecord) : bool :=
  match r with Timestamp _ => true | _ => false end.

Definition is_WindLine (r : DisplayRecord) : bool :=
  match r with WindLine _ => true | _ => false end.

Definition is_WaveLine (r : DisplayRecord) : bool :=
  match r with WaveLine _ => true | _ => false end.

(** The forecast line of an entry or one of its day lines. *)
Definition is_forecast_part (r : DisplayRecord) : bool :=
  is_ForecastLine r || is_DayLine r.

End Forecast.

(** ** The area catalogue: [WeatherApp.load_area_list] *)

Module Catalog.

(** A value of the ["centers"] or ["offices"] mapping ([center_info],
    [office_info]); only its ["name"] key is read. *)
Record Info := mkInfo { info_name : option string }.

(** [area.json]: both mappings are optional.  A mapping is the list of
    its items in the order Python iterates over them. *)
Record AreaData := mkAreaData {
  centers : option (list (string * Info));
  offices : option (list (string * Info))
}.

Inductive AreaType : Type := center | office.

(** An element of [self.area_list]: [{"code": .., "name": .., "type": ..}] *)
Record AreaEntry := mkAreaEntry {
  code : string;
  name : string;
  type : AreaType
}.

(** Body of the two [for code, info in mapping.items()] loops. *)
Definition item_step (kind : AreaType) (area_list : list AreaEntry)
           (item : string * Info) : list AreaEntry :=
  let '(item_code, item_info) := item in
  match info_name item_info with
  | Some n => area_list ++ [mkAreaEntry item_code n kind]
  | None => area_list
  end.

(** [self.area_list] once both loops have run. *)
Definition build_area_list (area_data : AreaData) : list AreaEntry :=
  let area_list := [] in
  let area_list :=
    match centers area_data with
    | Some items => fold_left (item_step center) items area_list
    | None => area_list
    end in
  match offices area_data with
  | Some items => fold_left (item_step office) items area_list
  | None => area_list
  end.

(** [sorted(l, key=lambda x: x["name"])]: Python's sort is stable, and a
    stable sort has one result; it is computed here by insertion. *)
Fixpoint insert (x : AreaEntry) (l : list AreaEntry) : list AreaEntry :=
  match l with
  | [] => [x]
  | y :: l' =>
      if String.leb (name x) (name y) then x :: l else y :: insert x l'
  end.

Fixpoint sorted (l : list AreaEntry) : list AreaEntry :=
  match l with
  | [] => []
  | x :: l' => insert x (sorted l')
  end.

(** The areas in the order of the dropdown. *)
Definition sorted_area_list (area_data : AreaData) : list AreaEntry :=
  sorted (build_area_list area_data).

(** [ft.dropdown.Option(key=area["code"], text=f"{area['name']} ({area['code']})")] *)
Definition dropdown_option (a : AreaEntry) : string * string :=
  (code a, (name a ++ " (" ++ code a ++ ")")%string).

Definition dropdown_options (area_data : AreaData) : list (string * string) :=
  map dropdown_option (sorted_area_list area_data).

(** What one item adds to the list, and what a mapping adds. *)
Definition item_records (kind : AreaType) (item : string * Info)
  : list AreaEntry :=
  item_step kind [] item.

Definition entries_of (kind : AreaType)
           (mapping : option (list (string * Info))) : list AreaEntry :=
  match mapping with
  | Some items => flat_map (item_records kind) items
  | None => []
  end.

(** The order of the keys: [a <= b] on the names. *)
Definition name_le (a b : AreaEntry) : Prop :=
  String.leb (name a) (name b) = true.

Definition has_name (n : string) (a : AreaEntry) : bool :=
  String.eqb (name a) n.

(** Directories used below. *)
Definition tokyo_osaka : AreaData :=
  mkAreaData (Some [("A"%string, mkInfo (Some "Tokyo"%string))])
             (Some [("B"%string, mkInfo (Some "Osaka"%string))]).

Definition empty_name_data : AreaData :=
  mkAreaData (Some [("A"%string, mkInfo (Some ""%string))]) None.

(** The items of a mapping that may be absent, and the test made on each
    of them: [if "name" in info]. *)
Definition items_of (mapping : option (list (string * Info)))
  : list (string * Info) :=
  match mapping with
  | Some items => items
  | None => []
  end.

Definition named (item : string * Info) : bool :=
  match info_name (snd item) with
  | Some _ => true
  | None => false
  end.

End Catalog.

(** ** The application state: [load_area_list], [on_area_selected],
       [load_weather_info]

    The widgets are reduced to the attributes these methods read and write.
    A request is a function from the URL to its outcome: the parsed JSON
    when [requests.get], [raise_for_status] and [response.json()] all
    return, or the [RequestException] that one of them raises, with its
    [str(e)].  Each method returns the states shown by its calls of
    [self.page.update()], in order, and the state it leaves. *)

Module App.

Inductive Response (A : Type) : Type :=
| Fetched (json : A)
| RequestException (message : string).

Arguments Fetched {A} json.
Arguments RequestException {A} message.

Record State := mkState {
  area_data : option Catalog.AreaData;        (* self.area_data *)
  area_list : list Catalog.AreaEntry;         (* self.area_list *)
  options : list (string * string);           (* self.area_dropdown.options *)
  value : option string;                      (* self.area_dropdown.value *)
  controls : list Forecast.DisplayRecord;     (* self.weather_info.controls *)
  loading_visible : bool;                     (* self.loading_indicator.visible *)
  error_value : string;                       (* self.error_message.value *)
  error_visible : bool                        (* self.error_message.visible *)
}.

(** The attributes as [__init__] sets them, before it calls
    [load_area_list]. *)
Definition initial : State :=
  mkState None [] [] None [] false "" false.

Definition area_url : string :=
  "http://www.jma.go.jp/bosai/common/const/area.json".

Definition forecast_url (area_code : string) : string :=
  ("https://www.jma.go.jp/bosai/forecast/data/forecast/"
     ++ area_code ++ ".json")%string.

(** [WeatherApp.load_area_list] *)
Definition load_area_list (get : string -> Response Catalog.AreaData)
           (st : State) : list State * State :=
  let st1 := mkState (area_data st) (area_list st) (options st) (value st)
                     (controls st) true (error_value st) false in
  match get area_url with
  | Fetched data =>
      let st2 := mkState (Some data) (Catalog.build_area_list data)
                         (Catalog.dropdown_options data) (value st1)
                         (controls st1) false (error_value st1)
                         (error_visible st1) in
      ([st1; st2], st2)
  | RequestException e =>
      let st2 := mkState (area_data st1) (area_list st1) (options st1)
                         (value st1) (controls st1) false
                         ("[ERROR] FAILED TO LOAD AREA LIST: " ++ e)%string
                         true in
      ([st1; st2], st2)
  end.

(** [WeatherApp.load_weather_info] *)
Definition load_weather_info
           (get : string -> Response (list Forecast.AreaForecast))
           (area_code : string) (st : State) : list State * State :=
  let st1 := mkState (area_data st) (area_list st) (options st) (value st)
                     [] true (error_value st) false in
  match get (forecast_url area_code) with
  | Fetched weather_data =>
      let st2 := mkState (area_data st1) (area_list st1) (options st1)
                         (value st1)
                         (Forecast.display_weather_info weather_data)
                         false (error_value st1) (error_visible st1) in
      ([st1; st2], st2)
  | RequestException e =>
      let st2 := mkState (area_data st1) (area_list st1) (options st1)
                         (value st1) [] false
                         ("[ERROR] FAILED TO LOAD WEATHER DATA: " ++ e)%string
                         true in
      ([st1; st2], st2)
  end.

(** [WeatherApp.on_area_selected]: [if not self.area_dropdown.value: return] *)
Definition on_area_selected
           (get : string -> Response (list Forecast.AreaForecast))
           (st : State) : list State * State :=
  match value st with
  | None => ([], st)
  | Some area_code =>
      if truthy area_code then load_weather_info get area_code st
      else ([], st)
  end.

(** What can happen to the application once [__init__] has set the
    attributes: the two requests, and the choice of an option by the
    user, on which the toolkit stores the key of the option in
    [self.area_dropdown.value] and calls [on_area_selected]. *)
Inductive Call : Type :=
| CallLoadAreaList (get : string -> Response Catalog.AreaData)
| CallChoose (key : option string)
             (get : string -> Response (list Forecast.AreaForecast)).

Definition with_value (key : option string) (st : State) : State :=
  mkState (area_data st) (area_list st) (options st) key (controls st)
          (loading_visible st) (error_value st) (error_visible st).

Definition run_call (st : State) (c : Call) : State :=
  match c with
  | CallLoadAreaList get => snd (load_area_list get st)
  | CallChoose key get => snd (on_area_selected get (with_value key st))
  end.

Definition run (calls : list Call) (st : State) : State :=
  fold_left run_call calls st.

(** The directory received last: a directory request that succeeds
    replaces it, a request that fails and the choice of an option leave
    it. *)
Definition directory_step (received : option Catalog.AreaData) (c : Call)
  : option Catalog.AreaData :=
  match c with
  | CallLoadAreaList get =>
      match get area_url with
      | Fetched data => Some data
      | RequestException _ => received
      end
  | CallChoose _ _ => received
  end.

Definition directory_after (received : option Catalog.AreaData)
           (calls : list Call) : option Catalog.AreaData :=
  fold_left directory_step calls received.

End App.

(** * Properties *)

(** ** Strings *)

Section StringFacts.

Lemma contains_append c s1 s2 :
  contains c (s1 ++ s2)%string = contains c s1 || contains c s2.
Proof.
  induction s1 as [|a s1 IH]; simpl; [reflexivity|].
  now rewrite IH, orb_assoc.
Qed.

Lemma split_not_nil c s : split c s <> [].
Proof.
  destruct s as [|a r]; simpl; [discriminate|].
  destruct (Ascii.eqb a c); [discriminate|].
  destruct (split c r); discriminate.
Qed.

(** Without the separator there is one field, the string itself. *)
Lemma split_absent c s : contains c s = false -> split c s = [s].
Proof.
  induction s as [|a r IH]; simpl; [reflexivity|].
  intros H. apply orb_false_iff in H. destruct H as [Ha Hr].
  now rewrite Ha, (IH Hr).
Qed.

(** The first field ends at the first separator. *)
Lemma split_first c p r :
  contains c p = false ->
  split c (p ++ String c r)%string = p :: split c r.
Proof.
  induction p as [|a p IH]; simpl.
  - intros _. now rewrite Ascii.eqb_refl.
  - intros H. apply orb_false_iff in H. destruct H as [Ha Hp].
    now rewrite Ha, (IH Hp).
Qed.

Lemma contains_here c r : contains c (String c r) = true.
Proof. simpl. now rewrite Ascii.eqb_refl. Qed.

(** Slicing never yields more code points than asked for, and gives the
    whole string back when it is short enough. *)
Lemma py_len_take n s : py_len (py_take n s) = Nat.min n (py_len s).
Proof.
  revert n. induction s as [|a r IH]; intros n; simpl.
  - now rewrite Nat.min_0_r.
  - destruct (is_continuation a) eqn:E; simpl.
    + rewrite E. apply IH.
    + destruct n as [|n']; simpl; [reflexivity|]. now rewrite E, IH.
Qed.

Lemma py_take_all n s : py_len s <= n -> py_take n s = s.
Proof.
  revert n. induction s as [|a r IH]; intros n; simpl; [reflexivity|].
  destruct (is_continuation a) eqn:E; simpl; intros H.
  - now rewrite IH.
  - destruct n as [|n']; [lia|]. rewrite IH; [reflexivity|lia].
Qed.

Lemma py_len_append s1 s2 :
  py_len (s1 ++ s2)%string = py_len s1 + py_len s2.
Proof.
  induction s1 as [|a r IH]; simpl; [reflexivity|].
  rewrite IH. lia.
Qed.

Lemma py_len_repeat_space n : py_len (repeat_char " " n) = n.
Proof. induction n as [|n IH]; simpl; [reflexivity|]. now rewrite IH. Qed.

(** A right-aligned field has at least the asked width and ends with the
    value; the fill is to its left. *)
Lemma py_len_rjust w s : py_len (rjust w s) = Nat.max w (py_len s).
Proof.
  unfold rjust. rewrite py_len_append, py_len_repeat_space. lia.
Qed.

End StringFacts.

(** ** The weather-code table *)

Section WeatherCodes.

Lemma dict_get_absent d k default :
  ~ In k (map fst d) -> dict_get d k default = default.
Proof.
  induction d as [|[k' v] d IH]; simpl; [reflexivity|].
  intros H. destruct (String.eqb_spec k' k) as [->|Hne].
  - exfalso. apply H. now left.
  - apply IH. intros Hin. apply H. now right.
Qed.

Lemma dict_get_present d k v default :
  NoDup (map fst d) -> In (k, v) d -> dict_get d k default = v.
Proof.
  induction d as [|[k' v'] d IH]; simpl; [intros _ []|].
  intros Hnd [Heq|Hin].
  - inversion Heq; subst. now rewrite String.eqb_refl.
  - inversion Hnd as [|? ? Hnotin Hnd']; subst.
    destruct (String.eqb_spec k' k) as [->|Hne].
    + exfalso. apply Hnotin. now apply (in_map fst) in Hin.
    + now apply IH.
Qed.

(** No code is listed twice, so the list of items is the dictionary. *)
Lemma weather_map_keys_NoDup : NoDup (map fst weather_map).
Proof.
  apply (NoDup_count_occ' string_dec).
  intros k Hin. simpl in Hin.
  repeat (destruct Hin as [<-|Hin]; [vm_compute; reflexivity|]).
  destruct Hin.
Qed.

(** A listed code is described by its phrase. *)
Lemma get_weather_text_known code phrase :
  In (code, phrase) weather_map -> get_weather_text code = phrase.
Proof.
  intros Hin. unfold get_weather_text.
  now apply dict_get_present; [apply weather_map_keys_NoDup|].
Qed.

(** C3 (as the code has it): for every code that the table does not list,
    [get_weather_text] returns the fallback made of the prefix written in
    the source, the code between parentheses: 不明(<code>).  The function
    is total, so no input makes it fail.  In particular the code 999 gives
    不明(999). *)
Theorem get_weather_text_unlisted code :
  ~ In code (map fst weather_map) ->
  get_weather_text code = ("不明(" ++ code ++ ")")%string.
Proof.
  intros H. unfold get_weather_text. now rewrite dict_get_absent.
Qed.

Lemma get_weather_text_unlisted_witness :
  get_weather_text "999" = "不明(999)".
Proof.
  apply (get_weather_text_unlisted "999").
  vm_compute. intros H.
  repeat (destruct H as [H|H]; [discriminate H|]).
  exact H.
Defined.

(** C3 (as stated) fails: the fallback for 999 is not the text
    unknown(999); the source writes the prefix in Japanese. *)
Lemma get_weather_text_999_not_english :
  get_weather_text "999" <> "unknown(999)".
Proof. vm_compute. discriminate. Qed.

End WeatherCodes.

(** ** The date of a day line *)

Section DateShort.

Import Forecast.

Lemma date_part_before_T p rest :
  contains "T" p = false ->
  nth 0 (split "T" (p ++ String "T" rest)%string) ""%string = p.
Proof. intros H. now rewrite split_first. Qed.

Lemma date_short_with_T p rest :
  contains "T" p = false ->
  date_short (p ++ String "T" rest)%string
  = if contains "-" p then join "/" (slice 1 3 (split "-" p)) else p.
Proof.
  intros H. unfold date_short.
  rewrite contains_append, contains_here, orb_true_r.
  now rewrite date_part_before_T.
Qed.

Lemma split_year_month_day y m d :
  contains "-" y = false -> contains "-" m = false ->
  contains "-" d = false ->
  split "-" (y ++ String "-" (m ++ String "-" d))%string = [y; m; d].
Proof.
  intros Hy Hm Hd.
  now rewrite (split_first _ _ _ Hy), (split_first _ _ _ Hm), (split_absent _ _ Hd).
Qed.

(** C5 (as the code has it): the date of a day line depends first on
    whether the time definition contains the letter T.
    - With a T, the date portion is the text before the first T.  A date
      portion with a hyphen gives its second and third hyphen-separated
      fields joined by a slash, so that YYYY-MM-DD gives MM/DD; a date
      portion without a hyphen is shown as it is.
    - Without a T, the first 10 characters of the string are shown, and
      the whole string when it has fewer than 10 characters. *)
Theorem date_short_rule :
  (forall p rest,
      contains "T" p = false -> contains "-" p = true ->
      date_short (p ++ String "T" rest)%string
      = join "/" (slice 1 3 (split "-" p)))
  /\ (forall y m d rest,
         contains "T" y = false -> contains "T" m = false ->
         contains "T" d = false ->
         contains "-" y = false -> contains "-" m = false ->
         contains "-" d = false ->
         date_short ((y ++ String "-" (m ++ String "-" d)) ++ String "T" rest)%string
         = (m ++ "/" ++ d)%string)
  /\ (forall p rest,
         contains "T" p = false -> contains "-" p = false ->
         date_short (p ++ String "T" rest)%string = p)
  /\ (forall s,
         contains "T" s = false -> 10 <= py_len s ->
         date_short s = py_take 10 s /\ py_len (date_short s) = 10)
  /\ (forall s,
         contains "T" s = false -> py_len s < 10 ->
         date_short s = s).
Proof.
  split; [|split; [|split; [|split]]].
  - intros p rest HT Hh. now rewrite (date_short_with_T _ _ HT), Hh.
  - intros y m d rest HyT HmT HdT Hy Hm Hd.
    rewrite date_short_with_T.
    + rewrite contains_append, contains_here, orb_true_r.
      now rewrite split_year_month_day.
    + rewrite contains_append. simpl.
      rewrite contains_append. simpl.
      now rewrite HyT, HmT, HdT.
  - intros p rest HT Hh. now rewrite (date_short_with_T _ _ HT), Hh.
  - intros s HT Hlen. unfold date_short. rewrite HT.
    apply Nat.leb_le in Hlen. rewrite Hlen. split; [reflexivity|].
    rewrite py_len_take. apply Nat.leb_le in Hlen. lia.
  - intros s HT Hlen. unfold date_short. rewrite HT.
    apply Nat.leb_gt in Hlen. now rewrite Hlen.
Qed.

Lemma date_short_rule_witness :
  date_short "2024-01-01T00:00:00+09:00" = "01/01"%string
  /\ date_short "2024-01-02T00:00:00+09:00" = "01/02"%string
  /\ date_short "20240101T000000" = "20240101"%string
  /\ date_short "2024-01-01 00:00" = "2024-01-01"%string
  /\ date_short "2024-1-1" = "2024-1-1"%string.
Proof.
  destruct date_short_rule as (Hfields & Hymd & Hplain & Hlong & Hshort).
  split; [|split; [|split; [|split]]].
  - exact (Hfields "2024-01-01" "00:00:00+09:00" eq_refl eq_refl).
  - exact (Hymd "2024" "01" "02" "00:00:00+09:00"
                eq_refl eq_refl eq_refl eq_refl eq_refl eq_refl).
  - exact (Hplain "20240101" "000000" eq_refl eq_refl).
  - refine (proj1 (Hlong "2024-01-01 00:00" eq_refl _)). simpl. lia.
  - refine (Hshort "2024-1-1" eq_refl _). simpl. lia.
Defined.

(** C5 (as stated) fails: a time definition whose date portion is not of
    the YYYY-MM-DD shape is not shown by its first 10 characters when it
    contains a T; the date portion is shown instead. *)
Lemma date_short_not_first_10 :
  date_short "20240101T000000" = "20240101"%string
  /\ py_take 10 "20240101T000000" = "20240101T0"%string
  /\ date_short "20240101T000000" <> py_take 10 "20240101T000000".
Proof. repeat split. vm_compute. discriminate. Qed.

End DateShort.

(** ** What each loop appends *)

Section Emission.

Import Forecast.

(** A loop whose body only appends leaves the list it started from in
    front and adds what each iteration appends, in order. *)
Lemma fold_left_appends {A R : Type} (step : list R -> A -> list R)
      (out : A -> list R) :
  (forall controls x, step controls x = controls ++ out x) ->
  forall xs controls,
    fold_left step xs controls = controls ++ flat_map out xs.
Proof.
  intros Hstep xs. induction xs as [|x xs IH]; intros controls; simpl.
  - now rewrite app_nil_r.
  - now rewrite IH, Hstep, <- app_assoc.
Qed.

Lemma day_step_appends controls x :
  day_step controls x = controls ++ day_record x.
Proof. now destruct x as [i [time_def weather_code]]. Qed.

Lemma area_info_records_eq time_defines area_info :
  area_info_records time_defines area_info
  = match weatherCodes area_info with
    | Some weather_codes =>
        ForecastLine (get_area_name (info_area area_info) "")
                     :: day_lines time_defines weather_codes
    | None => []
    end ++ reading_lines area_info.
Proof.
  unfold area_info_records, reading_lines, area_info_step, day_lines.
  destruct area_info as [a wc t wi wa]; simpl.
  destruct wc as [weather_codes|]; simpl.
  - rewrite (fold_left_appends day_step day_record day_step_appends).
    simpl.
    destruct t as [[|? ?]|]; destruct wi as [[|? ?]|];
      destruct wa as [[|? ?]|]; simpl;
      rewrite <- ?app_assoc; simpl; rewrite ?app_nil_r; reflexivity.
  - destruct t as [[|? ?]|]; destruct wi as [[|? ?]|];
      destruct wa as [[|? ?]|]; reflexivity.
Qed.

Lemma area_info_step_appends time_defines controls area_info :
  area_info_step time_defines controls area_info
  = controls ++ area_info_records time_defines area_info.
Proof.
  unfold area_info_records, area_info_step.
  destruct area_info as [a wc t wi wa]; simpl.
  destruct wc as [weather_codes|]; simpl;
    rewrite ?(fold_left_appends day_step day_record day_step_appends);
    destruct t as [[|? ?]|]; destruct wi as [[|? ?]|];
      destruct wa as [[|? ?]|]; simpl;
      rewrite <- ?app_assoc; simpl; rewrite ?app_nil_r; reflexivity.
Qed.

Lemma time_series_records_eq time_series :
  time_series_records time_series
  = match timeDefines time_series, areas time_series with
    | Some time_defines, Some infos =>
        flat_map (area_info_records time_defines) infos
    | _, _ => []
    end.
Proof.
  unfold time_series_records, time_series_step.
  destruct (timeDefines time_series) as [time_defines|]; [|reflexivity].
  destruct (areas time_series) as [infos|]; [|reflexivity].
  now rewrite (fold_left_appends _ _ (area_info_step_appends time_defines)).
Qed.

Lemma time_series_step_appends controls time_series :
  time_series_step controls time_series
  = controls ++ time_series_records time_series.
Proof.
  rewrite time_series_records_eq. unfold time_series_step.
  destruct (timeDefines time_series) as [time_defines|];
    [|now rewrite app_nil_r].
  destruct (areas time_series) as [infos|]; [|now rewrite app_nil_r].
  apply (fold_left_appends _ _ (area_info_step_appends time_defines)).
Qed.

Lemma area_forecast_records_eq area_forecast :
  area_forecast_records area_forecast
  = header_records area_forecast ++ timestamp_records area_forecast
      ++ blocks_records area_forecast ++ [Separator].
Proof.
  unfold area_forecast_records, area_forecast_step, header_records,
    timestamp_records, blocks_records.
  destruct (area area_forecast); destruct (reportDatetime area_forecast);
    destruct (timeSeries area_forecast) as [blocks|]; simpl;
    rewrite ?(fold_left_appends _ _ time_series_step_appends);
    simpl; rewrite <- ?app_assoc; reflexivity.
Qed.

Lemma area_forecast_step_appends controls area_forecast :
  area_forecast_step controls area_forecast
  = controls ++ area_forecast_records area_forecast.
Proof.
  rewrite area_forecast_records_eq.
  unfold area_forecast_step, header_records, timestamp_records,
    blocks_records.
  destruct (area area_forecast); destruct (reportDatetime area_forecast);
    destruct (timeSeries area_forecast) as [blocks|]; simpl;
    rewrite ?(fold_left_appends _ _ time_series_step_appends);
    simpl; rewrite <- ?app_assoc; simpl; rewrite ?app_nil_r; reflexivity.
Qed.

(** The whole loop over the document. *)
Lemma loop_records weather_data :
  fold_left area_forecast_step weather_data []
  = flat_map area_forecast_records weather_data.
Proof.
  now rewrite (fold_left_appends _ _ area_forecast_step_appends).
Qed.

(** Every area forecast ends with a separator, so the loop over a
    document that is not empty leaves a list that is not empty. *)
Lemma area_forecast_records_not_nil area_forecast :
  area_forecast_records area_forecast <> [].
Proof.
  rewrite area_forecast_records_eq.
  destruct (header_records area_forecast); [|discriminate].
  destruct (timestamp_records area_forecast); [|discriminate].
  destruct (blocks_records area_forecast); discriminate.
Qed.

Lemma loop_records_not_nil weather_data :
  weather_data <> [] -> fold_left area_forecast_step weather_data [] <> [].
Proof.
  rewrite loop_records.
  destruct weather_data as [|af rest]; [congruence|]. intros _. simpl.
  pose proof (area_forecast_records_not_nil af).
  destruct (area_forecast_records af); [congruence|discriminate].
Qed.

(** For a document that is not empty the method leaves what the loop
    appended. *)
Lemma display_weather_info_eq weather_data :
  weather_data <> [] ->
  display_weather_info weather_data
  = flat_map area_forecast_records weather_data.
Proof.
  intros Hne. unfold display_weather_info.
  destruct weather_data as [|af rest]; [congruence|].
  pose proof (loop_records_not_nil (af :: rest) Hne) as Hnil.
  rewrite <- loop_records.
  destruct (fold_left area_forecast_step (af :: rest) []);
    [congruence|reflexivity].
Qed.

End Emission.

(** ** Forecast lines and day lines *)

Section DayLines.

Import Forecast.

Lemma flat_map_in_split {A R : Type} (out : A -> list R) x xs :
  In x xs ->
  exists pre post, flat_map out xs = pre ++ out x ++ post.
Proof.
  intros Hin. apply in_split in Hin. destruct Hin as (l1 & l2 & ->).
  exists (flat_map out l1), (flat_map out l2).
  now rewrite flat_map_app.
Qed.

(** The records of an entry of a block that has both keys stand together
    in the output. *)
Lemma area_info_records_in_output
      doc af blocks ts time_defines infos area_info :
  In af doc -> timeSeries af = Some blocks -> In ts blocks ->
  timeDefines ts = Some time_defines -> areas ts = Some infos ->
  In area_info infos ->
  exists pre post,
    display_weather_info doc
    = pre ++ area_info_records time_defines area_info ++ post.
Proof.
  intros Haf Hblocks Hts Htd Hinfos Hai.
  rewrite display_weather_info_eq by (intros ->; exact Haf).
  destruct (flat_map_in_split area_forecast_records _ _ Haf)
    as (p1 & q1 & ->).
  rewrite area_forecast_records_eq. unfold blocks_records.
  rewrite Hblocks.
  destruct (flat_map_in_split time_series_records _ _ Hts)
    as (p2 & q2 & ->).
  rewrite time_series_records_eq, Htd, Hinfos.
  destruct (flat_map_in_split (area_info_records time_defines) _ _ Hai)
    as (p3 & q3 & ->).
  exists (p1 ++ header_records af ++ timestamp_records af ++ p2 ++ p3),
    (q3 ++ q2 ++ [Separator] ++ q1).
  repeat rewrite <- app_assoc. reflexivity.
Qed.

Lemma length_day_lines_from k time_defines weather_codes :
  length (flat_map day_record
            (combine (seq k (length (zip time_defines weather_codes)))
                     (zip time_defines weather_codes)))
  = Nat.min (length time_defines) (length weather_codes).
Proof.
  revert k weather_codes.
  induction time_defines as [|t tds IH]; intros k [|c cs]; simpl;
    try reflexivity.
  f_equal. apply IH.
Qed.

Lemma nth_error_day_lines_from time_defines :
  forall weather_codes k i,
    i < Nat.min (length time_defines) (length weather_codes) ->
    nth_error (flat_map day_record
                 (combine (seq k (length (zip time_defines weather_codes)))
                          (zip time_defines weather_codes))) i
    = Some (DayLine (k + i + 1)
                    (date_short (nth i time_defines ""%string))
                    (get_weather_text (nth i weather_codes ""%string))
                    (nth i weather_codes ""%string)).
Proof.
  induction time_defines as [|t tds IH]; intros [|c cs] k i Hi; simpl in *;
    try lia.
  destruct i as [|i]; simpl.
  - now rewrite Nat.add_0_r.
  - rewrite IH by lia. do 2 f_equal. lia.
Qed.

Lemma day_lines_all_DayLine time_defines weather_codes :
  Forall (fun r => is_DayLine r = true)
         (day_lines time_defines weather_codes).
Proof.
  unfold day_lines, enumerate. generalize 0 as k.
  revert weather_codes.
  induction time_defines as [|t tds IH]; intros [|c cs] k; simpl;
    try constructor; [reflexivity|apply IH].
Qed.

Lemma reading_lines_all_reading area_info :
  Forall (fun r => is_reading r = true) (reading_lines area_info).
Proof.
  unfold reading_lines, area_info_step. simpl.
  destruct (temps area_info) as [[|? ?]|];
    destruct (winds area_info) as [[|? ?]|];
    destruct (waves area_info) as [[|? ?]|]; simpl;
    repeat constructor.
Qed.

Lemma entry_with_codes_records time_defines area_info weather_codes :
  weatherCodes area_info = Some weather_codes ->
  area_info_records time_defines area_info
  = ForecastLine (get_area_name (info_area area_info) "")
                 :: day_lines time_defines weather_codes
                 ++ reading_lines area_info
  /\ length (day_lines time_defines weather_codes)
     = Nat.min (length time_defines) (length weather_codes).
Proof.
  intros Hcodes. split.
  - now rewrite area_info_records_eq, Hcodes.
  - apply length_day_lines_from.
Qed.

(** C1: an entry with weather codes, in a block with time definitions,
    contributes to the output one forecast line followed by as many day
    lines as the shorter of the two sequences has elements, in index
    order; the day line at index i has the day number i+1, the text of
    the code at index i, and that code.  Only temperature, wind and wave
    lines of the entry follow, so the time definitions beyond the shorter
    sequence give no record. *)
Theorem forecast_line_then_day_lines
        doc af blocks ts time_defines infos area_info weather_codes :
  In af doc -> timeSeries af = Some blocks -> In ts blocks ->
  timeDefines ts = Some time_defines -> areas ts = Some infos ->
  In area_info infos ->
  weatherCodes area_info = Some weather_codes ->
  let n := Nat.min (length time_defines) (length weather_codes) in
  let days := day_lines time_defines weather_codes in
  (exists pre post,
      display_weather_info doc
      = pre ++ (ForecastLine (get_area_name (info_area area_info) "")
                  :: days ++ reading_lines area_info) ++ post)
  /\ area_info_records time_defines area_info
     = ForecastLine (get_area_name (info_area area_info) "")
                    :: days ++ reading_lines area_info
  /\ length days = n
  /\ (forall i, i < n ->
                nth_error days i
                = Some (DayLine (i + 1)
                                (date_short (nth i time_defines ""%string))
                                (get_weather_text (nth i weather_codes ""%string))
                                (nth i weather_codes ""%string)))
  /\ Forall (fun r => is_DayLine r = true) days
  /\ Forall (fun r => is_reading r = true) (reading_lines area_info).
Proof.
  intros Haf Hblocks Hts Htd Hinfos Hai Hcodes n days.
  assert (Hrec : area_info_records time_defines area_info
                 = ForecastLine (get_area_name (info_area area_info) "")
                                :: days ++ reading_lines area_info).
  { now rewrite area_info_records_eq, Hcodes. }
  split; [|split; [exact Hrec|split; [|split; [|split]]]].
  - rewrite <- Hrec.
    exact (area_info_records_in_output _ _ _ _ _ _ _
             Haf Hblocks Hts Htd Hinfos Hai).
  - apply length_day_lines_from.
  - intros i Hi. unfold days, day_lines, enumerate.
    now rewrite nth_error_day_lines_from.
  - apply day_lines_all_DayLine.
  - apply reading_lines_all_reading.
Qed.

Lemma forecast_line_then_day_lines_witness :
  (exists pre post,
      display_weather_info tokyo_doc
      = pre ++ (ForecastLine "Tokyo"
                  :: [DayLine 1 "01/01" "晴れ" "100";
                      DayLine 2 "01/02" "曇り" "200"] ++ []) ++ post)
  /\ length (day_lines ["2024-01-01T00:00:00+09:00";
                        "2024-01-02T00:00:00+09:00"] ["100"; "200"]) = 2.
Proof.
  pose proof (forecast_line_then_day_lines
                tokyo_doc tokyo_forecast [tokyo_block] tokyo_block
                ["2024-01-01T00:00:00+09:00"; "2024-01-02T00:00:00+09:00"]
                [tokyo_info] tokyo_info ["100"; "200"]
                (or_introl eq_refl) eq_refl (or_introl eq_refl)
                eq_refl eq_refl (or_introl eq_refl) eq_refl) as H.
  split.
  - exact (proj1 H).
  - exact (proj1 (proj2 (proj2 H))).
Defined.

Example display_tokyo_doc :
  display_weather_info tokyo_doc =
  [ AreaHeader "Tokyo";
    Timestamp "2024-01-01T00:00:00+09:00";
    ForecastLine "Tokyo";
    DayLine 1 "01/01" "晴れ" "100";
    DayLine 2 "01/02" "曇り" "200";
    Separator ].
Proof. reflexivity. Qed.

Example display_full_info :
  display_weather_info
    [mkAreaForecast None None
       (Some [mkTimeSeries (Some ["2024-01-01"%string])
                           (Some [mkAreaInfo None (Some ["308"%string])
                                             (Some [Some "8"%string; None])
                                             (Some [Some "north"%string; None])
                                             (Some [None; Some "1m"%string])])])]
  = [ ForecastLine "";
      DayLine 1 "2024-01-01" "雨で暴風を伴う" "308";
      TempLine ["  8°C"; "  -"]%string;
      WindLine ["north"; "  -"]%string;
      WaveLine ["  -"; "1m"]%string;
      Separator ].
Proof. reflexivity. Qed.

Example render_day_line :
  render (DayLine 1 "01/01" "晴れ" "100")
  = ("  [DAY 1 ] 01/01 | 晴れ" ++ repeat_char " " 18 ++ " [CODE:100]")%string.
Proof. reflexivity. Qed.

End DayLines.

(** ** Blocks without time definitions or without areas *)

Section SilentBlocks.

Import Forecast.

Lemma time_series_records_silent ts :
  timeDefines ts = None \/ areas ts = None ->
  time_series_records ts = [].
Proof.
  rewrite time_series_records_eq.
  intros [H|H]; rewrite H; [reflexivity|].
  now destruct (timeDefines ts).
Qed.

(** C9: a block that lacks the time definitions or the areas adds no
    record: the list of controls is the same after the block as before
    it, whatever its entries carry, and the output of a document is the
    output of the document without that block. *)
Theorem block_without_keys_is_silent ts :
  timeDefines ts = None \/ areas ts = None ->
  (forall controls, time_series_step controls ts = controls)
  /\ (forall d1 af d2 b1 b2,
         timeSeries af = Some (b1 ++ ts :: b2) ->
         display_weather_info (d1 ++ af :: d2)
         = display_weather_info
             (d1 ++ mkAreaForecast (area af) (reportDatetime af)
                                   (Some (b1 ++ b2)) :: d2)).
Proof.
  intros Hts. pose proof (time_series_records_silent ts Hts) as Hnil.
  split.
  - intros controls.
    now rewrite time_series_step_appends, Hnil, app_nil_r.
  - intros d1 af d2 b1 b2 Hblocks.
    rewrite !display_weather_info_eq by (now destruct d1).
    rewrite !flat_map_app. simpl. do 2 f_equal.
    rewrite !area_forecast_records_eq.
    unfold header_records, timestamp_records, blocks_records. simpl.
    rewrite Hblocks, !flat_map_app. simpl. now rewrite Hnil.
Qed.

Lemma block_without_keys_is_silent_witness :
  (forall controls,
      time_series_step controls block_without_timeDefines = controls)
  /\ (forall controls,
         time_series_step controls block_without_areas = controls)
  /\ display_weather_info
       [mkAreaForecast None None (Some [block_without_timeDefines])]
     = display_weather_info [mkAreaForecast None None (Some [])].
Proof.
  split; [|split].
  - exact (proj1 (block_without_keys_is_silent
                    block_without_timeDefines (or_introl eq_refl))).
  - exact (proj1 (block_without_keys_is_silent
                    block_without_areas (or_intror eq_refl))).
  - exact (proj2 (block_without_keys_is_silent
                    block_without_timeDefines (or_introl eq_refl))
                 [] (mkAreaForecast None None
                                    (Some [block_without_timeDefines]))
                 [] [] [] eq_refl).
Defined.

End SilentBlocks.

(** ** Area names: headers and forecast lines *)

Section Names.

Import Forecast.

Lemma get_area_name_of a default :
  get_area_name a default
  = match name_of a with Some n => n | None => default end.
Proof. now destruct a as [[[n|]]|]. Qed.

Lemma area_forecast_records_in_output doc af :
  In af doc ->
  exists pre post,
    display_weather_info doc = pre ++ area_forecast_records af ++ post.
Proof.
  intros Haf.
  rewrite display_weather_info_eq by (intros ->; exact Haf).
  now apply flat_map_in_split.
Qed.

Lemma filter_none {A : Type} (p : A -> bool) l :
  Forall (fun x => p x = false) l -> filter p l = [].
Proof.
  induction 1 as [|x l Hx _ IH]; simpl; [reflexivity|]. now rewrite Hx.
Qed.

Lemma filter_flat_map {A R : Type} (p : R -> bool) (out : A -> list R) xs :
  filter p (flat_map out xs) = flat_map (fun x => filter p (out x)) xs.
Proof.
  induction xs as [|x xs IH]; simpl; [reflexivity|].
  now rewrite filter_app, IH.
Qed.

(** The records of an entry are a forecast line, day lines and
    readings; no header of an area forecast is among them. *)
Lemma area_info_records_no_header time_defines area_info :
  Forall (fun r => is_AreaHeader r = false)
         (area_info_records time_defines area_info).
Proof.
  rewrite area_info_records_eq. apply Forall_app. split.
  - destruct (weatherCodes area_info) as [codes|]; [|constructor].
    constructor; [reflexivity|].
    eapply Forall_impl; [|apply day_lines_all_DayLine].
    now intros [] H.
  - eapply Forall_impl; [|apply reading_lines_all_reading].
    now intros [] H.
Qed.

Lemma blocks_records_no_header af :
  Forall (fun r => is_AreaHeader r = false) (blocks_records af).
Proof.
  unfold blocks_records.
  destruct (timeSeries af) as [blocks|]; [|constructor].
  apply Forall_flat_map, Forall_forall. intros ts _.
  rewrite time_series_records_eq.
  destruct (timeDefines ts) as [td|]; [|constructor].
  destruct (areas ts) as [infos|]; [|constructor].
  apply Forall_flat_map, Forall_forall. intros ai _.
  apply area_info_records_no_header.
Qed.

Lemma headers_of_area_forecast af :
  filter is_AreaHeader (area_forecast_records af) = header_records af.
Proof.
  rewrite area_forecast_records_eq, !filter_app.
  rewrite (filter_none _ _ (blocks_records_no_header af)).
  unfold header_records, timestamp_records.
  destruct (area af); destruct (reportDatetime af); reflexivity.
Qed.

(** C4 (as the code has it): the header of an area forecast is emitted
    exactly when the entry has the area key.  It carries the name of the
    area when there is one and the placeholder 不明 when the area has no
    name; an entry without the area key gets no header.  The headers in
    the output are those of the entries that have the area key, in
    document order. *)
Theorem area_header_iff_area_key :
  (forall af a n,
      area af = Some a -> name a = Some n ->
      filter is_AreaHeader (area_forecast_records af) = [AreaHeader n]
      /\ hd_error (area_forecast_records af) = Some (AreaHeader n))
  /\ (forall af a,
         area af = Some a -> name a = None ->
         filter is_AreaHeader (area_forecast_records af)
         = [AreaHeader "不明"]
         /\ hd_error (area_forecast_records af) = Some (AreaHeader "不明"))
  /\ (forall af,
         area af = None ->
         filter is_AreaHeader (area_forecast_records af) = [])
  /\ (forall doc,
         filter is_AreaHeader (display_weather_info doc)
         = flat_map header_records doc).
Proof.
  split; [|split; [|split]].
  - intros af a n Ha Hn. rewrite headers_of_area_forecast.
    rewrite area_forecast_records_eq. unfold header_records.
    rewrite Ha. simpl. now rewrite Hn.
  - intros af a Ha Hn. rewrite headers_of_area_forecast.
    rewrite area_forecast_records_eq. unfold header_records.
    rewrite Ha. simpl. now rewrite Hn.
  - intros af Ha. rewrite headers_of_area_forecast.
    unfold header_records. now rewrite Ha.
  - intros [|af rest]; [reflexivity|].
    rewrite display_weather_info_eq by discriminate.
    rewrite filter_flat_map. apply flat_map_ext.
    intros x. apply headers_of_area_forecast.
Qed.

Lemma area_header_iff_area_key_witness :
  filter is_AreaHeader (area_forecast_records tokyo_forecast)
  = [AreaHeader "Tokyo"]
  /\ filter is_AreaHeader (area_forecast_records nameless_forecast)
     = [AreaHeader "不明"]
  /\ filter is_AreaHeader (area_forecast_records bare_forecast) = [].
Proof.
  destruct area_header_iff_area_key as (Hnamed & Hnameless & Hbare & _).
  split; [|split].
  - exact (proj1 (Hnamed tokyo_forecast (mkArea (Some "Tokyo")) "Tokyo"
                         eq_refl eq_refl)).
  - exact (proj1 (Hnameless nameless_forecast (mkArea None)
                            eq_refl eq_refl)).
  - exact (Hbare bare_forecast eq_refl).
Defined.

(** C4 (as stated) fails: an entry whose area has no name still gets a
    header, and the header carries a placeholder. *)
Lemma area_header_with_placeholder :
  name_of (area nameless_forecast) = None
  /\ display_weather_info [nameless_forecast]
     = [AreaHeader "不明"; Separator].
Proof. split; reflexivity. Qed.

(** C10 (as the code has it): in a block that has time definitions, an
    entry with weather codes and without an area name gets its forecast
    line all the same, carrying the empty string.  The header of an
    area forecast whose area has no name carries 不明 instead, which is
    not empty. *)
Theorem forecast_line_without_name :
  (forall doc af blocks ts time_defines infos area_info weather_codes,
      In af doc -> timeSeries af = Some blocks -> In ts blocks ->
      timeDefines ts = Some time_defines -> areas ts = Some infos ->
      In area_info infos ->
      weatherCodes area_info = Some weather_codes ->
      name_of (info_area area_info) = None ->
      area_info_records time_defines area_info
      = ForecastLine "" :: day_lines time_defines weather_codes
                     ++ reading_lines area_info
      /\ exists pre post,
          display_weather_info doc
          = pre ++ (ForecastLine "" :: day_lines time_defines weather_codes
                                 ++ reading_lines area_info) ++ post)
  /\ (forall doc af a,
         In af doc -> area af = Some a -> name a = None ->
         exists pre rest post,
           area_forecast_records af = AreaHeader "不明" :: rest
           /\ display_weather_info doc
              = pre ++ (AreaHeader "不明" :: rest) ++ post)
  /\ "不明"%string <> ""%string.
Proof.
  split; [|split; [|discriminate]].
  - intros doc af blocks ts td infos ai codes
           Haf Hblocks Hts Htd Hinfos Hai Hcodes Hname.
    destruct (entry_with_codes_records td ai codes Hcodes) as [Hrec _].
    rewrite get_area_name_of, Hname in Hrec.
    split; [exact Hrec|]. rewrite <- Hrec.
    exact (area_info_records_in_output _ _ _ _ _ _ _
             Haf Hblocks Hts Htd Hinfos Hai).
  - intros doc af a Haf Ha Hn.
    destruct (area_forecast_records_in_output doc af Haf)
      as (pre & post & Hout).
    exists pre,
      (timestamp_records af ++ blocks_records af ++ [Separator]), post.
    assert (Hrec : area_forecast_records af
                   = AreaHeader "不明"
                       :: timestamp_records af ++ blocks_records af
                       ++ [Separator]).
    { rewrite area_forecast_records_eq. unfold header_records.
      rewrite Ha. simpl. now rewrite Hn. }
    split; [exact Hrec|]. now rewrite <- Hrec.
Qed.

Lemma forecast_line_without_name_witness :
  (exists pre post,
      display_weather_info nameless_doc
      = pre ++ (ForecastLine ""
                  :: day_lines ["2024-01-01T00:00:00+09:00"] ["100"]
                  ++ reading_lines full_info) ++ post)
  /\ exists pre rest post,
      area_forecast_records nameless_forecast = AreaHeader "不明" :: rest
      /\ display_weather_info [nameless_forecast]
         = pre ++ (AreaHeader "不明" :: rest) ++ post.
Proof.
  destruct forecast_line_without_name as (Hline & Hheader & _).
  split.
  - exact (proj2 (Hline nameless_doc
                        (mkAreaForecast None None (Some [nameless_block]))
                        [nameless_block] nameless_block
                        ["2024-01-01T00:00:00+09:00"] [full_info] full_info
                        ["100"]
                        (or_introl eq_refl) eq_refl (or_introl eq_refl)
                        eq_refl eq_refl (or_introl eq_refl)
                        eq_refl eq_refl)).
  - exact (Hheader [nameless_forecast] nameless_forecast (mkArea None)
                   (or_introl eq_refl) eq_refl eq_refl).
Defined.

(** C10 (as stated) fails for the entries of a block without time
    definitions: the entry has weather codes and no area name, and no
    forecast line is emitted for it. *)
Lemma forecast_line_needs_timeDefines :
  areas block_without_timeDefines = Some [full_info]
  /\ weatherCodes full_info = Some ["100"%string]
  /\ name_of (info_area full_info) = None
  /\ display_weather_info
       [mkAreaForecast None None (Some [block_without_timeDefines])]
     = [Separator].
Proof. repeat split. Qed.

End Names.

(** ** Documents with nothing to show *)

Section TerminalRecords.

Import Forecast.

Lemma area_info_records_not_terminal time_defines area_info :
  Forall (fun r => is_terminal r = false)
         (area_info_records time_defines area_info).
Proof.
  rewrite area_info_records_eq. apply Forall_app. split.
  - destruct (weatherCodes area_info) as [codes|]; [|constructor].
    constructor; [reflexivity|].
    eapply Forall_impl; [|apply day_lines_all_DayLine].
    now intros [] H.
  - eapply Forall_impl; [|apply reading_lines_all_reading].
    now intros [] H.
Qed.

Lemma area_forecast_records_not_terminal af :
  Forall (fun r => is_terminal r = false) (area_forecast_records af).
Proof.
  rewrite area_forecast_records_eq.
  repeat (apply Forall_app; split).
  - unfold header_records. destruct (area af); repeat constructor.
  - unfold timestamp_records.
    destruct (reportDatetime af); repeat constructor.
  - unfold blocks_records.
    destruct (timeSeries af) as [blocks|]; [|constructor].
    apply Forall_flat_map, Forall_forall. intros ts _.
    rewrite time_series_records_eq.
    destruct (timeDefines ts) as [td|]; [|constructor].
    destruct (areas ts) as [infos|]; [|constructor].
    apply Forall_flat_map, Forall_forall. intros ai _.
    apply area_info_records_not_terminal.
  - repeat constructor.
Qed.

Lemma loop_records_not_terminal doc :
  Forall (fun r => is_terminal r = false)
         (flat_map area_forecast_records doc).
Proof.
  apply Forall_flat_map, Forall_forall. intros af _.
  apply area_forecast_records_not_terminal.
Qed.

(** The test made after the loop never succeeds: the separator of the
    first area forecast is already in the list. *)
Lemma unrenderable_never_reported doc :
  ~ In Empty (display_weather_info doc).
Proof.
  destruct doc as [|af rest].
  - simpl. intros [H|[]]. discriminate H.
  - rewrite display_weather_info_eq by discriminate. intros Hin.
    pose proof (loop_records_not_terminal (af :: rest)) as Hall.
    rewrite Forall_forall in Hall. specialize (Hall _ Hin).
    discriminate Hall.
Qed.



(** C2 (the code at the failing input): a document made of one area
    forecast that has no area, no report time and no time series gives one
    separator and nothing else.  The branch that appends the record for no
    displayable data is there, but its test is made on a list that already
    holds the separator, so the record is not appended. *)
Theorem bare_forecast_gives_separator_only af :
  area af = None -> reportDatetime af = None -> timeSeries af = None ->
  display_weather_info [af] = [Separator]
  /\ ~ In Empty (display_weather_info [af]).
Proof.
  intros Ha Hr Hts. split; [|apply unrenderable_never_reported].
  rewrite display_weather_info_eq by discriminate. simpl.
  rewrite area_forecast_records_eq.
  unfold header_records, timestamp_records, blocks_records.
  now rewrite Ha, Hr, Hts.
Qed.

Lemma bare_forecast_gives_separator_only_witness :
  display_weather_info [bare_forecast] = [Separator]
  /\ ~ In Empty (display_weather_info [bare_forecast]).
Proof.
  exact (bare_forecast_gives_separator_only bare_forecast
           eq_refl eq_refl eq_refl).
Defined.

(** The record for no displayable data does not follow the separator. *)
Lemma bare_forecast_no_empty_record :
  display_weather_info [bare_forecast] <> [Separator; Empty].
Proof. vm_compute. discriminate. Qed.

End TerminalRecords.

(** ** Temperature lines *)

Section TempLines.

Import Forecast.

Lemma temp_lines_of_entry time_defines area_info :
  filter is_TempLine (area_info_records time_defines area_info)
  = match temps area_info with
    | Some (t :: ts) => [TempLine (map temp_value (t :: ts))]
    | _ => []
    end.
Proof.
  rewrite area_info_records_eq, filter_app.
  assert (Hdays : filter is_TempLine
                    match weatherCodes area_info with
                    | Some weather_codes =>
                        ForecastLine (get_area_name (info_area area_info) "")
                          :: day_lines time_defines weather_codes
                    | None => []
                    end = []).
  { destruct (weatherCodes area_info) as [codes|]; [|reflexivity].
    simpl. apply filter_none.
    eapply Forall_impl; [|apply day_lines_all_DayLine].
    now intros [] H. }
  rewrite Hdays. unfold reading_lines, area_info_step. simpl.
  destruct (temps area_info) as [[|? ?]|];
    destruct (winds area_info) as [[|? ?]|];
    destruct (waves area_info) as [[|? ?]|]; reflexivity.
Qed.

Lemma temp_value_present t :
  t <> ""%string ->
  temp_value (Some t) = (repeat_char " " (3 - py_len t) ++ t ++ "°C")%string.
Proof.
  intros Ht. unfold temp_value, rjust.
  destruct t as [|c r]; [congruence|]. simpl truthy. cbv iota.
  induction (repeat_char " " (3 - py_len (String c r))) as [|a s IH];
    simpl; [reflexivity|]. now rewrite IH.
Qed.

(** C7 (as the code has it): in a block that has time definitions, an
    entry whose temperatures are present and not empty gives exactly one
    temperature line; an entry without temperatures, or with an empty
    array, gives none.  A value that is present and not empty is
    right-aligned in a field of three characters, the spaces to its
    left and a longer value kept whole, and is followed by the degree
    sign and C; a null or empty value gives two spaces and a dash.  The
    line shows the values joined by a bar between two spaces. *)
Theorem temp_line_rule :
  (forall time_defines area_info t ts,
      temps area_info = Some (t :: ts) ->
      filter is_TempLine (area_info_records time_defines area_info)
      = [TempLine (map temp_value (t :: ts))])
  /\ (forall time_defines area_info,
         temps area_info = None \/ temps area_info = Some [] ->
         filter is_TempLine (area_info_records time_defines area_info) = [])
  /\ (forall doc af blocks ts time_defines infos area_info t tl,
         In af doc -> timeSeries af = Some blocks -> In ts blocks ->
         timeDefines ts = Some time_defines -> areas ts = Some infos ->
         In area_info infos -> temps area_info = Some (t :: tl) ->
         In (TempLine (map temp_value (t :: tl))) (display_weather_info doc))
  /\ (forall t,
         t <> ""%string ->
         temp_value (Some t)
         = (repeat_char " " (3 - py_len t) ++ t ++ "°C")%string
         /\ py_len (temp_value (Some t)) = Nat.max 3 (py_len t) + 2)
  /\ temp_value None = "  -"%string
  /\ temp_value (Some ""%string) = "  -"%string
  /\ (forall temp_values,
         render (TempLine temp_values)
         = ("  [TEMP] " ++ join " | " temp_values)%string).
Proof.
  split; [|split; [|split; [|split; [|repeat split]]]].
  - intros td ai t ts Ht. now rewrite temp_lines_of_entry, Ht.
  - intros td ai [Ht|Ht]; now rewrite temp_lines_of_entry, Ht.
  - intros doc af blocks ts td infos ai t tl
           Haf Hblocks Hts Htd Hinfos Hai Ht.
    destruct (area_info_records_in_output _ _ _ _ _ _ _
                Haf Hblocks Hts Htd Hinfos Hai) as (pre & post & ->).
    apply in_or_app. right. apply in_or_app. left.
    assert (Hin : In (TempLine (map temp_value (t :: tl)))
                     (filter is_TempLine (area_info_records td ai))).
    { rewrite temp_lines_of_entry, Ht. now left. }
    now apply filter_In in Hin.
  - intros t Ht. split; [now apply temp_value_present|].
    unfold temp_value. destruct t as [|c r]; [congruence|].
    simpl truthy. cbv iota.
    rewrite py_len_append, py_len_rjust. reflexivity.
Qed.

Lemma temp_line_rule_witness :
  filter is_TempLine (area_info_records [] temps_info)
  = [TempLine ["  8°C"; "-12.5°C"; "  -"; "  -"]%string]
  /\ In (TempLine ["  8°C"; "-12.5°C"; "  -"; "  -"]%string)
        (display_weather_info temps_doc)
  /\ temp_value (Some "8"%string) = "  8°C"%string.
Proof.
  destruct temp_line_rule as (Hone & _ & Hout & Hfmt & _).
  split; [|split].
  - exact (Hone [] temps_info (Some "8"%string)
                [Some "-12.5"%string; None; Some ""%string] eq_refl).
  - exact (Hout temps_doc
                (mkAreaForecast None None
                   (Some [ mkTimeSeries None (Some [temps_info]);
                           mkTimeSeries (Some []) (Some [temps_info]) ]))
                [ mkTimeSeries None (Some [temps_info]);
                  mkTimeSeries (Some []) (Some [temps_info]) ]
                (mkTimeSeries (Some []) (Some [temps_info]))
                [] [temps_info] temps_info (Some "8"%string)
                [Some "-12.5"%string; None; Some ""%string]
                (or_introl eq_refl) eq_refl (or_intror (or_introl eq_refl))
                eq_refl eq_refl (or_introl eq_refl) eq_refl).
  - refine (proj1 (Hfmt "8"%string _)). discriminate.
Defined.

(** C7 (as stated) fails twice on one document.  Its two blocks hold the
    same entry, with four temperatures, and the first block has no time
    definitions: one temperature line is emitted, not two.  In that line
    the value 8 has its spaces to the left, where padding on the right
    would put them after it, and the value -12.5 takes five characters,
    not three. *)
Lemma temp_line_left_filled_and_guarded :
  display_weather_info temps_doc
  = [TempLine ["  8°C"; "-12.5°C"; "  -"; "  -"]%string; Separator]
  /\ temp_value (Some "8"%string) <> (ljust 3 "8" ++ "°C")%string
  /\ py_len (rjust 3 "-12.5") = 5.
Proof. repeat split. vm_compute. discriminate. Qed.

End TempLines.

(** ** The area catalogue *)

Section AreaCatalogue.

Import Catalog.

Lemma item_step_appends kind area_list item :
  item_step kind area_list item = area_list ++ item_records kind item.
Proof.
  destruct item as [c [[n|]]]; simpl; [reflexivity|].
  now rewrite app_nil_r.
Qed.

Lemma build_area_list_eq area_data :
  build_area_list area_data
  = entries_of center (centers area_data)
      ++ entries_of office (offices area_data).
Proof.
  unfold build_area_list, entries_of.
  destruct (centers area_data) as [cs|];
    destruct (offices area_data) as [os|];
    rewrite ?(fold_left_appends _ _ (item_step_appends _));
    simpl; rewrite ?app_nil_r; reflexivity.
Qed.

(** The comparison of names is a total preorder. *)
Lemma leb_refl s : String.leb s s = true.
Proof.
  unfold String.leb.
  pose proof (proj2 (OrderedTypeEx.String_as_OT.cmp_eq s s) eq_refl) as H.
  unfold OrderedTypeEx.String_as_OT.cmp in H. now rewrite H.
Qed.

Lemma leb_trans a b c :
  String.leb a b = true -> String.leb b c = true -> String.leb a c = true.
Proof.
  unfold String.leb. intros Hab Hbc.
  destruct (String.compare a b) eqn:Eab; [| |discriminate].
  - apply OrderedTypeEx.String_as_OT.cmp_eq in Eab. now subst.
  - destruct (String.compare b c) eqn:Ebc; [| |discriminate].
    + apply OrderedTypeEx.String_as_OT.cmp_eq in Ebc. subst.
      now rewrite Eab.
    + apply OrderedTypeEx.String_as_OT.cmp_lt in Eab, Ebc.
      pose proof (OrderedTypeEx.String_as_OT.lt_trans _ _ _ Eab Ebc) as H.
      apply OrderedTypeEx.String_as_OT.cmp_lt in H.
      unfold OrderedTypeEx.String_as_OT.cmp in H. now rewrite H.
Qed.

(** The sort keeps the elements. *)
Lemma insert_perm x l : Permutation (insert x l) (x :: l).
Proof.
  induction l as [|y l IH]; simpl; [reflexivity|].
  destruct (String.leb (name x) (name y)); [reflexivity|].
  rewrite IH. apply perm_swap.
Qed.

Lemma sorted_perm l : Permutation (sorted l) l.
Proof.
  induction l as [|x l IH]; simpl; [reflexivity|].
  now rewrite insert_perm, IH.
Qed.

(** The sort puts the names in ascending order. *)
Lemma insert_sorted x l :
  StronglySorted name_le l -> StronglySorted name_le (insert x l).
Proof.
  induction 1 as [|y l Hl IH Hy]; simpl.
  - repeat constructor.
  - destruct (String.leb (name x) (name y)) eqn:Hxy.
    + constructor; [now constructor|].
      constructor; [exact Hxy|].
      eapply Forall_impl; [|exact Hy].
      intros z Hyz. exact (leb_trans _ _ _ Hxy Hyz).
    + constructor; [exact IH|].
      eapply Permutation_Forall; [symmetry; apply insert_perm|].
      constructor; [|exact Hy].
      destruct (String.leb_total (name x) (name y)) as [H|H];
        [congruence|exact H].
Qed.

Lemma sorted_sorted l : StronglySorted name_le (sorted l).
Proof.
  induction l as [|x l IH]; simpl; [constructor|].
  now apply insert_sorted.
Qed.

(** The sort is stable: the entries of one name keep their order. *)
Lemma insert_same_name n x l :
  filter (has_name n) (insert x l) = filter (has_name n) (x :: l).
Proof.
  induction l as [|y l IH]; simpl; [reflexivity|].
  destruct (String.leb (name x) (name y)) eqn:Hxy; [reflexivity|].
  simpl in *. rewrite IH. unfold has_name.
  destruct (String.eqb_spec (name x) n) as [Hx|Hx]; [|reflexivity].
  destruct (String.eqb_spec (name y) n) as [Hy|Hy]; [|reflexivity].
  rewrite Hx, <- Hy, leb_refl in Hxy. discriminate.
Qed.

Lemma sorted_stable n l :
  filter (has_name n) (sorted l) = filter (has_name n) l.
Proof.
  induction l as [|x l IH]; simpl; [reflexivity|].
  rewrite insert_same_name. simpl. now rewrite IH.
Qed.

(** C8 (as the code has it): the catalogue holds one entry, tagged
    center or office after its mapping, for each item of the directory
    whose name key is present, whatever the name; an item without the
    key gives none.  The entries are in ascending order of name, those of
    one name in the order of the directory, centers first.  A mapping
    that is absent gives no entry, and a directory without both mappings
    gives the empty list. *)
Theorem sorted_area_list_rule area_data :
  Permutation (sorted_area_list area_data)
              (entries_of center (centers area_data)
                 ++ entries_of office (offices area_data))
  /\ StronglySorted name_le (sorted_area_list area_data)
  /\ (forall n,
         filter (has_name n) (sorted_area_list area_data)
         = filter (has_name n)
                  (entries_of center (centers area_data)
                     ++ entries_of office (offices area_data)))
  /\ (forall kind item_code n,
         item_records kind (item_code, mkInfo (Some n))
         = [mkAreaEntry item_code n kind])
  /\ (forall kind item_code,
         item_records kind (item_code, mkInfo None) = [])
  /\ (centers area_data = None ->
      entries_of center (centers area_data) = [])
  /\ (offices area_data = None ->
      entries_of office (offices area_data) = [])
  /\ (centers area_data = None -> offices area_data = None ->
      sorted_area_list area_data = []).
Proof.
  unfold sorted_area_list. rewrite build_area_list_eq.
  split; [apply sorted_perm|].
  split; [apply sorted_sorted|].
  split; [intros n; apply sorted_stable|].
  split; [reflexivity|]. split; [reflexivity|].
  split; [now intros ->|]. split; [now intros ->|].
  now intros -> ->.
Qed.

Lemma sorted_area_list_rule_witness :
  sorted_area_list (mkAreaData None None) = [].
Proof.
  exact (proj2 (proj2 (proj2 (proj2 (proj2 (proj2 (proj2
           (sorted_area_list_rule (mkAreaData None None))))))))
           eq_refl eq_refl).
Defined.

(** C8 (as stated) fails: an item whose name is the empty string gets an
    entry, since the code asks only whether the name key is there. *)
Lemma empty_name_is_listed :
  sorted_area_list empty_name_data
  = [mkAreaEntry "A" "" center].
Proof. reflexivity. Qed.

Example sorted_tokyo_osaka :
  sorted_area_list tokyo_osaka
  = [mkAreaEntry "B" "Osaka" office; mkAreaEntry "A" "Tokyo" center].
Proof. reflexivity. Qed.

Example dropdown_tokyo_osaka :
  dropdown_options tokyo_osaka
  = [("B", "Osaka (B)"); ("A", "Tokyo (A)")]%string.
Proof. reflexivity. Qed.

End AreaCatalogue.

(** * Further properties *)

(** ** The weather-code table: listed and unlisted codes *)

Section WeatherCodesMore.

Lemma prefix_append p s : String.prefix p (p ++ s)%string = true.
Proof.
  induction p as [|a p IH]; simpl.
  - now destruct s.
  - destruct (ascii_dec a a) as [_|Hne]; [exact IH|congruence].
Qed.

(** Every item of the table has a key of three characters and a phrase of
    one to twenty characters that does not begin like the fallback. *)
Lemma weather_map_items code phrase :
  In (code, phrase) weather_map ->
  String.length code = 3
  /\ 1 <= py_len phrase <= 20
  /\ String.prefix "不明(" phrase = false.
Proof.
  intros Hin.
  assert (Hall : forallb
                   (fun kv => (String.length (fst kv) =? 3)
                              && (1 <=? py_len (snd kv))
                              && (py_len (snd kv) <=? 20)
                              && negb (String.prefix "不明(" (snd kv)))
                   weather_map = true) by (vm_compute; reflexivity).
  rewrite forallb_forall in Hall. specialize (Hall _ Hin).
  cbn beta iota delta [fst snd] in Hall.
  apply andb_prop in Hall. destruct Hall as [Hall Hpre].
  apply andb_prop in Hall. destruct Hall as [Hall Hmax].
  apply andb_prop in Hall. destruct Hall as [Hkey Hmin].
  apply Nat.eqb_eq in Hkey. apply Nat.leb_le in Hmin, Hmax.
  apply negb_true_iff in Hpre. auto.
Qed.

Lemma listed_code_has_phrase code :
  In code (map fst weather_map) ->
  exists phrase, In (code, phrase) weather_map.
Proof.
  intros Hin. apply in_map_iff in Hin.
  destruct Hin as ([k v] & Hk & Hin). simpl in Hk. subst k. now exists v.
Qed.

(** X1: the text of a code is the fallback built from that code exactly
    when the table does not list the code: no phrase of the table can be
    taken for a fallback. *)
Theorem get_weather_text_fallback_iff code :
  get_weather_text code = ("不明(" ++ code ++ ")")%string
  <-> ~ In code (map fst weather_map).
Proof.
  split.
  - intros Hfb Hin.
    destruct (listed_code_has_phrase code Hin) as (phrase & Hitem).
    rewrite (get_weather_text_known _ _ Hitem) in Hfb.
    destruct (weather_map_items _ _ Hitem) as (_ & _ & Hpre).
    rewrite Hfb in Hpre.
    now rewrite (prefix_append "不明(" (code ++ ")")) in Hpre.
  - intros Hnot. unfold get_weather_text. now rewrite dict_get_absent.
Qed.

Lemma get_weather_text_fallback_iff_witness :
  get_weather_text "100" <> ("不明(" ++ "100" ++ ")")%string.
Proof.
  intros H.
  apply (proj1 (get_weather_text_fallback_iff "100") H).
  vm_compute. now left.
Defined.

(** X2: the text of a code is never the empty string, and the text of a
    listed code has at most 20 characters, so that it fills the field of
    20 characters of the day line exactly. *)
Theorem get_weather_text_fits_column code :
  get_weather_text code <> ""%string
  /\ (In code (map fst weather_map) ->
      py_len (get_weather_text code) <= 20
      /\ py_len (ljust 20 (get_weather_text code)) = 20).
Proof.
  split.
  - destruct (in_dec string_dec code (map fst weather_map)) as [Hin|Hnot].
    + destruct (listed_code_has_phrase code Hin) as (phrase & Hitem).
      rewrite (get_weather_text_known _ _ Hitem).
      destruct (weather_map_items _ _ Hitem) as (_ & [Hmin _] & _).
      intros ->. simpl in Hmin. lia.
    + unfold get_weather_text. rewrite dict_get_absent by exact Hnot.
      discriminate.
  - intros Hin.
    destruct (listed_code_has_phrase code Hin) as (phrase & Hitem).
    rewrite (get_weather_text_known _ _ Hitem).
    destruct (weather_map_items _ _ Hitem) as (_ & [_ Hmax] & _).
    split; [exact Hmax|].
    unfold ljust. rewrite py_len_append, py_len_repeat_space. lia.
Qed.

Lemma get_weather_text_fits_column_witness :
  py_len (get_weather_text "231") <= 20
  /\ py_len (ljust 20 (get_weather_text "231")) = 20.
Proof.
  apply (proj2 (get_weather_text_fits_column "231")).
  vm_compute. tauto.
Defined.

(** Every key of the table has three characters. *)
Lemma weather_map_key_len code :
  In code (map fst weather_map) -> py_len code = 3.
Proof.
  intros Hin.
  assert (Hall : forallb (fun k => py_len k =? 3) (map fst weather_map)
                 = true) by (vm_compute; reflexivity).
  rewrite forallb_forall in Hall. now apply Nat.eqb_eq, Hall.
Qed.

(** X3: a code that does not have exactly three characters, counted as
    Python counts them, is not in the table and gets the fallback. *)
Theorem get_weather_text_other_length code :
  py_len code <> 3 ->
  get_weather_text code = ("不明(" ++ code ++ ")")%string.
Proof.
  intros Hlen. unfold get_weather_text. rewrite dict_get_absent; [reflexivity|].
  intros Hin. now apply weather_map_key_len in Hin.
Qed.

Lemma get_weather_text_other_length_witness :
  get_weather_text "" = "不明()"%string
  /\ get_weather_text "1000" = "不明(1000)"%string
  /\ get_weather_text "雨" = "不明(雨)"%string.
Proof.
  split; [|split].
  - apply (get_weather_text_other_length ""). simpl. lia.
  - apply (get_weather_text_other_length "1000"). simpl. lia.
  - apply (get_weather_text_other_length "雨"). vm_compute. lia.
Defined.

End WeatherCodesMore.

(** ** The shape of the output *)

Section OutputShape.

Import Forecast.

(** What the blocks of an area forecast add is made of forecast lines,
    day lines and readings only. *)
Lemma area_info_records_kinds time_defines area_info :
  Forall (fun r => is_forecast_part r || is_reading r = true)
         (area_info_records time_defines area_info).
Proof.
  rewrite area_info_records_eq. apply Forall_app. split.
  - destruct (weatherCodes area_info) as [codes|]; [|constructor].
    constructor; [reflexivity|].
    eapply Forall_impl; [|apply day_lines_all_DayLine].
    now intros [] H.
  - eapply Forall_impl; [|apply reading_lines_all_reading].
    now intros [] H.
Qed.

Lemma blocks_records_kinds af :
  Forall (fun r => is_forecast_part r || is_reading r = true)
         (blocks_records af).
Proof.
  unfold blocks_records.
  destruct (timeSeries af) as [blocks|]; [|constructor].
  apply Forall_flat_map, Forall_forall. intros ts _.
  rewrite time_series_records_eq.
  destruct (timeDefines ts) as [td|]; [|constructor].
  destruct (areas ts) as [infos|]; [|constructor].
  apply Forall_flat_map, Forall_forall. intros ai _.
  apply area_info_records_kinds.
Qed.

Lemma filter_blocks_records (p : DisplayRecord -> bool) af :
  (forall r, is_forecast_part r || is_reading r = true -> p r = false) ->
  filter p (blocks_records af) = [].
Proof.
  intros Hp. apply filter_none.
  eapply Forall_impl; [|apply blocks_records_kinds]. exact Hp.
Qed.

Lemma display_not_empty_ends_with_separator doc :
  display_weather_info doc <> []
  /\ (doc <> [] -> last (display_weather_info doc) NoData = Separator).
Proof.
  split.
  - destruct doc as [|af rest]; [discriminate|].
    unfold display_weather_info.
    pose proof (loop_records_not_nil (af :: rest)) as Hnil.
    destruct (fold_left area_forecast_step (af :: rest) []);
      [discriminate|discriminate].
  - intros Hne. rewrite display_weather_info_eq by exact Hne.
    destruct (exists_last Hne) as (front & af & ->).
    rewrite flat_map_app. simpl. rewrite app_nil_r.
    rewrite area_forecast_records_eq, !app_assoc.
    apply last_last.
Qed.

(** X4: something is always shown: the list of controls is never left
    empty, and for a document that is not empty its last record is a
    separator. *)
Theorem display_weather_info_ends_with_separator doc :
  display_weather_info doc <> []
  /\ (doc <> [] -> last (display_weather_info doc) NoData = Separator).
Proof.
  apply display_not_empty_ends_with_separator.
Qed.

Lemma display_weather_info_ends_with_separator_witness :
  last (display_weather_info tokyo_doc) NoData = Separator.
Proof.
  apply (proj2 (display_weather_info_ends_with_separator tokyo_doc)).
  discriminate.
Defined.

Lemma separators_of_area_forecast af :
  filter is_Separator (area_forecast_records af) = [Separator].
Proof.
  rewrite area_forecast_records_eq, !filter_app.
  rewrite (filter_blocks_records is_Separator af) by (now intros []).
  unfold header_records, timestamp_records.
  destruct (area af); destruct (reportDatetime af); reflexivity.
Qed.

(** X5: the output holds one separator for each area forecast of the
    document, no more and no less; the empty document has none. *)
Theorem one_separator_per_area_forecast doc :
  filter is_Separator (display_weather_info doc)
  = repeat Separator (length doc).
Proof.
  destruct doc as [|af rest]; [reflexivity|].
  rewrite display_weather_info_eq by discriminate.
  rewrite filter_flat_map.
  induction (af :: rest) as [|x xs IH]; simpl; [reflexivity|].
  now rewrite separators_of_area_forecast, IH.
Qed.

Lemma timestamps_of_area_forecast af :
  filter is_Timestamp (area_forecast_records af) = timestamp_records af.
Proof.
  rewrite area_forecast_records_eq, !filter_app.
  rewrite (filter_blocks_records is_Timestamp af) by (now intros []).
  unfold header_records, timestamp_records.
  destruct (area af); destruct (reportDatetime af); simpl;
    now rewrite ?app_nil_r.
Qed.

(** X6: the time stamps of the output are the report times of the area
    forecasts that have one, in document order and as they are written in
    the document; an area forecast without a report time gives none. *)
Theorem timestamps_are_report_times doc :
  filter is_Timestamp (display_weather_info doc)
  = flat_map (fun af => match reportDatetime af with
                        | Some report_time => [Timestamp report_time]
                        | None => []
                        end) doc.
Proof.
  destruct doc as [|af rest]; [reflexivity|].
  rewrite display_weather_info_eq by discriminate.
  rewrite filter_flat_map. apply flat_map_ext.
  intros x. apply timestamps_of_area_forecast.
Qed.

(** X7: area forecasts are shown one after the other and independently:
    the output for two documents put end to end is the output for the
    first followed by the output for the second, when neither is empty. *)
Theorem display_weather_info_app d1 d2 :
  d1 <> [] -> d2 <> [] ->
  display_weather_info (d1 ++ d2)
  = display_weather_info d1 ++ display_weather_info d2.
Proof.
  intros H1 H2.
  rewrite !display_weather_info_eq; try assumption.
  - apply flat_map_app.
  - destruct d1; [congruence|discriminate].
Qed.

Lemma display_weather_info_app_witness :
  display_weather_info (tokyo_doc ++ [nameless_forecast])
  = display_weather_info tokyo_doc ++ display_weather_info [nameless_forecast].
Proof.
  apply (display_weather_info_app tokyo_doc [nameless_forecast]);
    discriminate.
Defined.

End OutputShape.

(** ** The lines of an entry *)

Section EntryLines.

Import Forecast.

Lemma filter_all {A : Type} (p : A -> bool) l :
  Forall (fun x => p x = true) l -> filter p l = l.
Proof.
  induction 1 as [|x l Hx _ IH]; simpl; [reflexivity|].
  now rewrite Hx, IH.
Qed.

(** The forecast line and the day lines of an entry. *)
Lemma forecast_part_all time_defines area_info :
  Forall (fun r => is_forecast_part r = true)
         match weatherCodes area_info with
         | Some weather_codes =>
             ForecastLine (get_area_name (info_area area_info) "")
                          :: day_lines time_defines weather_codes
         | None => []
         end.
Proof.
  destruct (weatherCodes area_info) as [codes|]; [|constructor].
  constructor; [reflexivity|].
  eapply Forall_impl; [|apply day_lines_all_DayLine].
  now intros [] H.
Qed.

Lemma filter_entry (p : DisplayRecord -> bool) time_defines area_info :
  (forall r, is_forecast_part r = true -> p r = false) ->
  filter p (area_info_records time_defines area_info)
  = filter p (reading_lines area_info).
Proof.
  intros Hp. rewrite area_info_records_eq, filter_app.
  rewrite filter_none; [reflexivity|].
  eapply Forall_impl; [|apply forecast_part_all]. exact Hp.
Qed.

Lemma or_dash_not_empty x : or_dash x <> ""%string.
Proof. destruct x as [[|c r]|]; discriminate. Qed.

(** X8: an entry whose winds are present and not empty gives exactly one
    wind line, with one value for each element of the array, and an entry
    without winds or with an empty array gives none; the same holds for
    the waves.  An element that is present and not empty is shown as it
    is, a null or empty element as two spaces and a dash, so that no value
    of the line is empty. *)
Theorem wind_and_wave_lines time_defines area_info :
  filter is_WindLine (area_info_records time_defines area_info)
  = match winds area_info with
    | Some (w :: ws) => [WindLine (map or_dash (w :: ws))]
    | _ => []
    end
  /\ filter is_WaveLine (area_info_records time_defines area_info)
     = match waves area_info with
       | Some (w :: ws) => [WaveLine (map or_dash (w :: ws))]
       | _ => []
       end
  /\ (forall values,
         length (map or_dash values) = length values
         /\ Forall (fun v => v <> ""%string) (map or_dash values))
  /\ (forall v, v <> ""%string -> or_dash (Some v) = v)
  /\ or_dash None = "  -"%string
  /\ or_dash (Some ""%string) = "  -"%string.
Proof.
  split; [|split; [|split; [|split; [|split; reflexivity]]]].
  - rewrite filter_entry by (now intros []).
    unfold reading_lines, area_info_step. simpl.
    destruct (temps area_info) as [[|? ?]|];
      destruct (winds area_info) as [[|? ?]|];
      destruct (waves area_info) as [[|? ?]|]; reflexivity.
  - rewrite filter_entry by (now intros []).
    unfold reading_lines, area_info_step. simpl.
    destruct (temps area_info) as [[|? ?]|];
      destruct (winds area_info) as [[|? ?]|];
      destruct (waves area_info) as [[|? ?]|]; reflexivity.
  - intros values. split; [apply length_map|].
    apply Forall_map, Forall_forall. intros x _. apply or_dash_not_empty.
  - intros [|c r] Hv; [congruence|reflexivity].
Qed.

Lemma wind_and_wave_lines_witness :
  or_dash (Some "north"%string) = "north"%string.
Proof.
  destruct (wind_and_wave_lines [] full_info) as (_ & _ & _ & Hv & _).
  apply Hv. discriminate.
Defined.

(** X9: the lines of an entry come in a fixed order: the forecast line
    and the day lines, then the temperature line, then the wind line,
    then the wave line; nothing else is emitted for the entry. *)
Theorem entry_lines_in_order time_defines area_info :
  let records := area_info_records time_defines area_info in
  records
  = filter is_forecast_part records ++ filter is_TempLine records
      ++ filter is_WindLine records ++ filter is_WaveLine records.
Proof.
  intros records. unfold records.
  rewrite !(filter_entry is_TempLine), !(filter_entry is_WindLine),
    !(filter_entry is_WaveLine) by (now intros []).
  rewrite area_info_records_eq at 1 2. rewrite filter_app.
  rewrite (filter_all _ _ (forecast_part_all time_defines area_info)).
  rewrite (filter_none is_forecast_part (reading_lines area_info)).
  - rewrite app_nil_r. f_equal.
    unfold reading_lines, area_info_step. simpl.
    destruct (temps area_info) as [[|? ?]|];
      destruct (winds area_info) as [[|? ?]|];
      destruct (waves area_info) as [[|? ?]|]; reflexivity.
  - eapply Forall_impl; [|apply reading_lines_all_reading].
    now intros [] H.
Qed.

End EntryLines.

(** ** The date of a day line, continued *)

Section DateShortMore.

Import Forecast.

(** No field of a split holds the separator, and the fields hold no
    character that the string did not hold. *)
Lemma split_fields_without_sep c s :
  Forall (fun f => contains c f = false) (split c s).
Proof.
  induction s as [|a r IH]; simpl; [now repeat constructor|].
  destruct (Ascii.eqb a c) eqn:Hac; [now constructor|].
  destruct (split c r) as [|h t]; simpl.
  - repeat constructor. simpl. now rewrite Hac.
  - inversion IH as [|? ? Hh Ht]; subst.
    constructor; [|exact Ht]. simpl. now rewrite Hac.
Qed.

Lemma split_fields_without x c s :
  contains x s = false ->
  Forall (fun f => contains x f = false) (split c s).
Proof.
  induction s as [|a r IH]; simpl; [now repeat constructor|].
  intros H. apply orb_false_iff in H. destruct H as [Ha Hr].
  specialize (IH Hr).
  destruct (Ascii.eqb a c); [now constructor|].
  destruct (split c r) as [|h t]; simpl.
  - repeat constructor. simpl. now rewrite Ha.
  - inversion IH as [|? ? Hh Ht]; subst.
    constructor; [|exact Ht]. simpl. now rewrite Ha, Hh.
Qed.

Lemma slice_Forall {A : Type} (P : A -> Prop) i j (l : list A) :
  Forall P l -> Forall P (slice i j l).
Proof.
  intros H. unfold slice.
  assert (Hskip : Forall P (skipn i l)).
  { clear j. revert i. induction H as [|x l Hx Hl IH]; intros [|i]; simpl;
      try constructor; auto. }
  generalize (j - i) as n. induction Hskip as [|x l' Hx Hl IH];
    intros [|n]; simpl; constructor; auto.
Qed.

Lemma join_without x sep l :
  contains x sep = false ->
  Forall (fun f => contains x f = false) l ->
  contains x (join sep l) = false.
Proof.
  intros Hsep. unfold join.
  induction 1 as [|f l Hf Hl IH]; simpl; [reflexivity|].
  destruct l as [|g l']; [exact Hf|].
  now rewrite !contains_append, Hf, Hsep, IH.
Qed.

Lemma py_take_without x n s :
  contains x s = false -> contains x (py_take n s) = false.
Proof.
  revert n. induction s as [|a r IH]; intros n; simpl; [reflexivity|].
  intros H. apply orb_false_iff in H. destruct H as [Ha Hr].
  destruct (is_continuation a); simpl.
  - now rewrite Ha, IH.
  - destruct n as [|n']; simpl; [reflexivity|]. now rewrite Ha, IH.
Qed.

(** X10: the date of a day line never holds the letter T, whatever the
    time definition is: the time of day is never shown. *)
Theorem date_short_without_T time_def :
  contains "T" (date_short time_def) = false.
Proof.
  unfold date_short.
  destruct (contains "T" time_def) eqn:HT.
  - pose proof (split_fields_without_sep "T" time_def) as Hfields.
    assert (Hpart : contains "T" (nth 0 (split "T" time_def) ""%string)
                    = false).
    { destruct (split "T" time_def) as [|h t]; [reflexivity|].
      now inversion Hfields. }
    destruct (contains "-" (nth 0 (split "T" time_def) ""%string));
      [|exact Hpart].
    apply join_without; [reflexivity|].
    apply slice_Forall. now apply split_fields_without.
  - destruct (10 <=? py_len time_def); [|exact HT].
    now apply py_take_without.
Qed.

(** X11: when the time definition holds a T, the date shown depends only
    on the text before the first T. *)
Theorem date_short_ignores_time date_part time1 time2 :
  contains "T" date_part = false ->
  date_short (date_part ++ String "T" time1)%string
  = date_short (date_part ++ String "T" time2)%string.
Proof.
  intros H. now rewrite !(date_short_with_T _ _ H).
Qed.

Lemma date_short_ignores_time_witness :
  date_short "2024-01-01T00:00:00+09:00"
  = date_short "2024-01-01T12:30:00Z".
Proof.
  exact (date_short_ignores_time "2024-01-01" "00:00:00+09:00" "12:30:00Z"
                                 eq_refl).
Defined.

(** ** The width of a day line *)

Lemma py_len_ljust w s : py_len (ljust w s) = Nat.max w (py_len s).
Proof.
  unfold ljust. rewrite py_len_append, py_len_repeat_space. lia.
Qed.

Lemma py_len_day_label day_index :
  day_index < 100 -> py_len ("DAY " ++ str_of_nat day_index)%string <= 6.
Proof.
  intros Hlt.
  assert (Hall : forallb
                   (fun i => py_len ("DAY " ++ str_of_nat i)%string <=? 6)
                   (seq 0 100) = true) by (vm_compute; reflexivity).
  rewrite forallb_forall in Hall.
  apply Nat.leb_le, Hall, in_seq. lia.
Qed.

(** X12: the day lines are laid out in columns: for a day number below
    100 and a weather text of at most 20 characters, the text of the line
    has 42 characters besides the date and the code, so that the dates,
    the texts and the codes of successive lines stand under each other. *)
Theorem render_day_line_width day_index date weather_text weather_code :
  day_index < 100 -> py_len weather_text <= 20 ->
  py_len (render (DayLine day_index date weather_text weather_code))
  = 42 + py_len date + py_len weather_code.
Proof.
  intros Hday Htext. pose proof (py_len_day_label day_index Hday) as Hlabel.
  unfold render.
  rewrite !py_len_append, !py_len_ljust.
  change (py_len "  [") with 3. change (py_len "] ") with 2.
  change (py_len " | ") with 3. change (py_len " [CODE:") with 7.
  change (py_len "]") with 1. lia.
Qed.

Lemma render_day_line_width_witness :
  py_len (render (DayLine 1 "01/01" "晴れ" "100")) = 42 + 5 + 3.
Proof.
  apply (render_day_line_width 1 "01/01" "晴れ" "100"); simpl; lia.
Defined.

End DateShortMore.

(** ** The area catalogue, continued *)

Section CatalogueMore.

Import Catalog.

Lemma has_name_self a : has_name (name a) a = true.
Proof. unfold has_name. apply String.eqb_refl. Qed.

Lemma in_same_names l1 l2 a :
  (forall n, filter (has_name n) l1 = filter (has_name n) l2) ->
  In a l1 -> In a l2.
Proof.
  intros Hsame Hin.
  assert (H : In a (filter (has_name (name a)) l1)).
  { apply filter_In. split; [exact Hin|apply has_name_self]. }
  rewrite Hsame in H. now apply filter_In in H.
Qed.

Lemma head_is_least x l a :
  StronglySorted name_le (x :: l) -> In a (x :: l) -> name_le x a.
Proof.
  intros Hs [<-|Hin]; [apply leb_refl|].
  apply StronglySorted_inv in Hs. destruct Hs as [_ Hall].
  rewrite Forall_forall in Hall. now apply Hall.
Qed.

(** Two lists in ascending order of name that hold the same entries of
    each name, in the same order, are the same list. *)
Lemma ascending_same_names_eq l1 :
  forall l2,
    StronglySorted name_le l1 -> StronglySorted name_le l2 ->
    (forall n, filter (has_name n) l1 = filter (has_name n) l2) ->
    l1 = l2.
Proof.
  induction l1 as [|x l1 IH]; intros [|y l2] Hs1 Hs2 Hsame.
  - reflexivity.
  - specialize (Hsame (name y)). simpl in Hsame.
    rewrite has_name_self in Hsame. discriminate.
  - specialize (Hsame (name x)). simpl in Hsame.
    rewrite has_name_self in Hsame. discriminate.
  - assert (Hxy : name x = name y).
    { apply String.leb_antisym.
      - apply (head_is_least x l1 y Hs1).
        apply (in_same_names (y :: l2) (x :: l1));
          [intros n; symmetry; apply Hsame|now left].
      - apply (head_is_least y l2 x Hs2).
        apply (in_same_names (x :: l1) (y :: l2)); [exact Hsame|now left]. }
    pose proof (Hsame (name x)) as Hhead. simpl in Hhead.
    rewrite has_name_self in Hhead.
    rewrite Hxy, has_name_self in Hhead.
    injection Hhead as Heq Htail. subst y. f_equal.
    apply StronglySorted_inv in Hs1, Hs2.
    apply IH; [tauto|tauto|].
    intros n. specialize (Hsame n). simpl in Hsame.
    destruct (has_name n x); [now injection Hsame|exact Hsame].
Qed.

(** X13: the result of the sort is determined by two properties, that it
    is in ascending order of name and that the entries of each name keep
    the order they had: any list with these two properties is the sorted
    list.  The way the sort is computed therefore does not matter. *)
Theorem stable_sort_unique l l' :
  StronglySorted name_le l' ->
  (forall n, filter (has_name n) l' = filter (has_name n) l) ->
  l' = sorted l.
Proof.
  intros Hs Hsame. apply ascending_same_names_eq.
  - exact Hs.
  - apply sorted_sorted.
  - intros n. now rewrite sorted_stable.
Qed.

Lemma stable_sort_unique_witness :
  [mkAreaEntry "B" "Osaka" office; mkAreaEntry "A" "Tokyo" center]
  = sorted [mkAreaEntry "A" "Tokyo" center; mkAreaEntry "B" "Osaka" office].
Proof.
  apply stable_sort_unique.
  - repeat constructor.
  - intros n. cbn [filter]. unfold has_name. cbn [name].
    destruct (String.eqb "Osaka" n) eqn:Ho;
      destruct (String.eqb "Tokyo" n) eqn:Ht; try reflexivity.
    apply String.eqb_eq in Ho, Ht. congruence.
Defined.

(** X14: a list that is already in ascending order of name is left as it
    is by the sort, so that sorting twice gives what sorting once gives. *)
Theorem sorted_of_ascending l :
  (StronglySorted name_le l -> sorted l = l)
  /\ sorted (sorted l) = sorted l.
Proof.
  assert (Hfix : forall l0, StronglySorted name_le l0 -> sorted l0 = l0).
  { intros l0 Hs. symmetry. apply ascending_same_names_eq.
    - exact Hs.
    - apply sorted_sorted.
    - intros n. now rewrite sorted_stable. }
  split; [apply Hfix|apply Hfix, sorted_sorted].
Qed.

Lemma sorted_of_ascending_witness :
  sorted [mkAreaEntry "B" "Osaka" office; mkAreaEntry "A" "Tokyo" center]
  = [mkAreaEntry "B" "Osaka" office; mkAreaEntry "A" "Tokyo" center].
Proof.
  apply (proj1 (sorted_of_ascending _)). repeat constructor.
Defined.

Lemma in_entries_of kind mapping item_code n :
  In (mkAreaEntry item_code n kind) (entries_of kind mapping)
  <-> In (item_code, mkInfo (Some n)) (items_of mapping).
Proof.
  unfold entries_of, items_of. destruct mapping as [items|]; [|tauto].
  rewrite in_flat_map. split.
  - intros ([c [[m|]]] & Hin & Hrec); simpl in Hrec; [|tauto].
    destruct Hrec as [Heq|[]]. now inversion Heq; subst.
  - intros Hin. exists (item_code, mkInfo (Some n)). split; [exact Hin|].
    now left.
Qed.

Lemma entries_of_kind kind mapping a :
  In a (entries_of kind mapping) -> type a = kind.
Proof.
  unfold entries_of. destruct mapping as [items|]; [|intros []].
  rewrite in_flat_map.
  intros ([c [[m|]]] & _ & Hrec); simpl in Hrec; [|tauto].
  destruct Hrec as [<-|[]]. reflexivity.
Qed.

(** X15: the dropdown offers an option with key c and text n (c) exactly
    when the directory has, among its centers or among its offices, an
    item of code c whose name is there and is n. *)
Theorem dropdown_options_membership area_data item_code text :
  In (item_code, text) (dropdown_options area_data)
  <-> exists n,
      text = (n ++ " (" ++ item_code ++ ")")%string
      /\ (In (item_code, mkInfo (Some n)) (items_of (centers area_data))
          \/ In (item_code, mkInfo (Some n)) (items_of (offices area_data))).
Proof.
  unfold dropdown_options, sorted_area_list. rewrite in_map_iff. split.
  - intros ([c n kind] & Hopt & Hin). unfold dropdown_option in Hopt.
    simpl in Hopt. inversion Hopt; subst. exists n. split; [reflexivity|].
    apply (Permutation_in _ (sorted_perm _)) in Hin.
    rewrite build_area_list_eq in Hin. apply in_app_or in Hin.
    destruct Hin as [Hin|Hin];
      pose proof (entries_of_kind _ _ _ Hin) as Hk; simpl in Hk; subst kind;
      apply in_entries_of in Hin; tauto.
  - intros (n & -> & Hin).
    assert (Hentry : exists kind,
               In (mkAreaEntry item_code n kind)
                  (build_area_list area_data)).
    { rewrite build_area_list_eq. destruct Hin as [Hin|Hin].
      - exists center. apply in_or_app. left. now apply in_entries_of.
      - exists office. apply in_or_app. right. now apply in_entries_of. }
    destruct Hentry as (kind & Hentry).
    exists (mkAreaEntry item_code n kind). split; [reflexivity|].
    apply (Permutation_in _ (Permutation_sym (sorted_perm _))), Hentry.
Qed.

Lemma dropdown_options_membership_witness :
  In ("B"%string, "Osaka (B)"%string) (dropdown_options tokyo_osaka).
Proof.
  apply (proj2 (dropdown_options_membership tokyo_osaka "B" "Osaka (B)")).
  exists "Osaka"%string. split; [reflexivity|]. right. now left.
Defined.

Lemma length_entries_of kind mapping :
  length (entries_of kind mapping)
  = length (filter named (items_of mapping)).
Proof.
  unfold entries_of, items_of. destruct mapping as [items|]; [|reflexivity].
  induction items as [|[c [[n|]]] items IH]; simpl; [reflexivity| |exact IH].
  unfold named at 1. simpl. now rewrite IH.
Qed.

(** X16: the dropdown has as many options as the two mappings have items
    with a name, counted together: an item without name is left out,
    and a code listed both as a center and as an office is offered
    twice. *)
Theorem dropdown_options_count area_data :
  length (dropdown_options area_data)
  = length (filter named (items_of (centers area_data)))
    + length (filter named (items_of (offices area_data))).
Proof.
  unfold dropdown_options, sorted_area_list.
  rewrite length_map, (Permutation_length (sorted_perm _)).
  now rewrite build_area_list_eq, length_app, !length_entries_of.
Qed.

End CatalogueMore.

(** ** Loading the directory and the forecasts *)

Section Loading.

Import Forecast App.



(** X18: when a forecast has been asked for, the progress ring is hidden
    again, and the panel shows either an error message and no record, when
    the request failed, or no error message and at least one record,
    when it succeeded.  The page is updated twice; the first time the
    progress ring is visible, the error message hidden and the panel
    cleared.  The directory, the options and the value of the dropdown
    are not touched. *)
Theorem load_weather_info_outcome get area_code st :
  let shown := fst (load_weather_info get area_code st) in
  let st' := snd (load_weather_info get area_code st) in
  loading_visible st' = false
  /\ (error_visible st' = true
      <-> exists e, get (forecast_url area_code) = RequestException e)
  /\ (error_visible st' = true -> controls st' = [])
  /\ (error_visible st' = false -> controls st' <> [])
  /\ (forall weather_data,
         get (forecast_url area_code) = Fetched weather_data ->
         controls st' = display_weather_info weather_data)
  /\ (exists first,
         shown = [first; st']
         /\ loading_visible first = true /\ error_visible first = false
         /\ controls first = [])
  /\ area_data st' = area_data st /\ area_list st' = area_list st
  /\ options st' = options st /\ value st' = value st.
Proof.
  unfold load_weather_info.
  destruct (get (forecast_url area_code)) as [weather_data|e]; simpl.
  - repeat split; try discriminate.
    + intros (e & He). discriminate He.
    + intros _.
      apply (proj1 (display_not_empty_ends_with_separator weather_data)).
    + intros wd Hwd. now inversion Hwd.
    + eexists. repeat split.
  - repeat split; try discriminate; try congruence.
    + intros _. now exists e.
    + eexists. repeat split.
Qed.

Lemma load_weather_info_outcome_witness :
  controls (snd (load_weather_info (fun _ => Fetched tokyo_doc)
                                   "130000" initial))
  = display_weather_info tokyo_doc
  /\ controls (snd (load_weather_info
                      (fun _ => RequestException "timeout"%string)
                      "130000" initial)) = [].
Proof.
  split.
  - destruct (load_weather_info_outcome (fun _ => Fetched tokyo_doc)
                                        "130000" initial)
      as (_ & _ & _ & _ & Hok & _).
    exact (Hok tokyo_doc eq_refl).
  - destruct (load_weather_info_outcome
                (fun _ => RequestException "timeout"%string)
                "130000" initial)
      as (_ & _ & Herr & _).
    exact (Herr eq_refl).
Defined.

(** X19: asking twice for the same forecast, with the same answer of the
    network, leaves the state that asking once leaves: what was shown
    before does not count. *)
Theorem load_weather_info_twice get area_code st :
  snd (load_weather_info get area_code
         (snd (load_weather_info get area_code st)))
  = snd (load_weather_info get area_code st).
Proof.
  unfold load_weather_info.
  destruct (get (forecast_url area_code)) as [weather_data|e]; reflexivity.
Qed.

(** The part of the state that follows the directory. *)
Lemma run_call_follows_directory st received c :
  loading_visible st = false ->
  area_data st = received ->
  area_list st = match received with
                 | Some data => Catalog.build_area_list data
                 | None => []
                 end ->
  options st = match received with
               | Some data => Catalog.dropdown_options data
               | None => []
               end ->
  let st' := run_call st c in
  let received' := directory_step received c in
  loading_visible st' = false
  /\ area_data st' = received'
  /\ area_list st' = match received' with
                     | Some data => Catalog.build_area_list data
                     | None => []
                     end
  /\ options st' = match received' with
                   | Some data => Catalog.dropdown_options data
                   | None => []
                   end.
Proof.
  intros Hload Hdata Hlist Hopts.
  destruct c as [get|key get]; simpl.
  - unfold load_area_list.
    destruct (get area_url) as [data|e]; simpl; repeat split; assumption.
  - unfold on_area_selected. simpl.
    destruct key as [area_code|]; [|repeat split; assumption].
    destruct (truthy area_code); [|repeat split; assumption].
    unfold load_weather_info.
    destruct (get (forecast_url area_code)); simpl; repeat split; assumption.
Qed.

Lemma run_follows_directory calls :
  forall st received,
    loading_visible st = false ->
    area_data st = received ->
    area_list st = match received with
                   | Some data => Catalog.build_area_list data
                   | None => []
                   end ->
    options st = match received with
                 | Some data => Catalog.dropdown_options data
                 | None => []
                 end ->
    loading_visible (run calls st) = false
    /\ area_data (run calls st) = directory_after received calls
    /\ area_list (run calls st)
       = match directory_after received calls with
         | Some data => Catalog.build_area_list data
         | None => []
         end
    /\ options (run calls st)
       = match directory_after received calls with
         | Some data => Catalog.dropdown_options data
         | None => []
         end.
Proof.
  induction calls as [|c calls IH]; intros st received Hload Hdata Hlist Hopts.
  - repeat split; assumption.
  - destruct (run_call_follows_directory st received c Hload Hdata Hlist Hopts)
      as (Hload' & Hdata' & Hlist' & Hopts').
    exact (IH _ _ Hload' Hdata' Hlist' Hopts').
Qed.

(** X20: starting from the attributes set by [__init__], after any
    sequence of directory requests and choices of an option, each request
    answered by a parsed document or by a [RequestException]: the
    progress ring is hidden; [self.area_data] is the directory of the last
    directory request that succeeded, and nothing when none did;
    [self.area_list] is the list built from that directory, and the
    options of the dropdown are that list sorted by name, both empty when
    no directory was received.  A directory request that fails therefore
    leaves the directory, the area list and the options that were
    there, and one that succeeds replaces them by those of the new
    directory. *)
Theorem state_after_any_calls calls :
  let st := run calls initial in
  (loading_visible st = false
   /\ area_data st = directory_after None calls
   /\ area_list st = match directory_after None calls with
                     | Some data => Catalog.build_area_list data
                     | None => []
                     end
   /\ options st = match directory_after None calls with
                   | Some data => Catalog.dropdown_options data
                   | None => []
                   end)
  /\ (forall get e,
         get area_url = RequestException e ->
         let st' := run (calls ++ [CallLoadAreaList get]) initial in
         area_data st' = area_data st /\ area_list st' = area_list st
         /\ options st' = options st
         /\ error_visible st' = true
         /\ error_value st' = ("[ERROR] FAILED TO LOAD AREA LIST: " ++ e)%string)
  /\ (forall get data,
         get area_url = Fetched data ->
         let st' := run (calls ++ [CallLoadAreaList get]) initial in
         area_data st' = Some data
         /\ area_list st' = Catalog.build_area_list data
         /\ options st' = Catalog.dropdown_options data
         /\ error_visible st' = false).
Proof.
  intros st. split; [|split].
  - apply run_follows_directory; reflexivity.
  - intros get e Hget st'. unfold st', st, run.
    rewrite fold_left_app. simpl. unfold load_area_list. rewrite Hget.
    simpl. repeat split.
  - intros get data Hget st'. unfold st', run.
    rewrite fold_left_app. simpl. unfold load_area_list. rewrite Hget.
    simpl. repeat split.
Qed.

Lemma state_after_any_calls_witness :
  options (run [CallLoadAreaList (fun _ => Fetched Catalog.tokyo_osaka);
                CallLoadAreaList (fun _ => RequestException "down"%string)]
               initial)
  = [("B", "Osaka (B)"); ("A", "Tokyo (A)")]%string
  /\ error_visible
       (run [CallLoadAreaList (fun _ => Fetched Catalog.tokyo_osaka);
             CallLoadAreaList (fun _ => RequestException "down"%string)]
            initial) = true.
Proof.
  destruct (state_after_any_calls
              [CallLoadAreaList (fun _ => Fetched Catalog.tokyo_osaka)])
    as (_ & Hfail & _).
  destruct (Hfail (fun _ => RequestException "down"%string) "down"%string
                  eq_refl) as (_ & _ & Hopts & Herr & _).
  split; [exact Hopts|exact Herr].
Defined.

End Loading.

(** ** The lines of an area forecast *)

Section AreaForecastLines.

Import Forecast.

(** X21: the records of an area forecast come in a fixed order: the
    header when there is an area, the time stamp when there is a report
    time, the records of the blocks, and the separator. *)
Theorem area_forecast_lines_in_order af :
  let records := area_forecast_records af in
  records
  = filter is_AreaHeader records ++ filter is_Timestamp records
      ++ filter (fun r => is_forecast_part r || is_reading r) records
      ++ filter is_Separator records.
Proof.
  intros records. unfold records.
  rewrite headers_of_area_forecast, timestamps_of_area_forecast,
    separators_of_area_forecast.
  rewrite area_forecast_records_eq at 1 2. rewrite !filter_app.
  rewrite (filter_all _ _ (blocks_records_kinds af)).
  unfold header_records, timestamp_records.
  destruct (area af); destruct (reportDatetime af);
    cbn [filter is_forecast_part is_ForecastLine is_DayLine is_reading
         orb app];
    rewrite ?app_nil_r; reflexivity.
Qed.

End AreaForecastLines.
